(** * Maestro: trap entry stubs, syscall dispatch, interrupt-mask lock

    A shallow embedding of

    - [src/syscall/handler.c]   (module [Handler]),
    - [src/util/lock.c]         (module [Lock]),
    - [src/test_process.c]      (module [TestProcess], [print_nbr] only),
    - [kernel/arch/x86/src/context.s] (module [Ctx]),

    followed by the properties of these files that the specification
    states.  Kernel memory is a pair of typed heaps (process descriptors
    and register frames) addressed by possibly-null pointers; kernel code
    lives in a state monad whose outcomes also cover a faulting access and
    a call that never returns. *)

From Stdlib Require Import ZArith Lia.
From stdpp Require Import base option list gmap.

Local Open Scope Z_scope.

(** ** Machine integers *)

Module Int.

(** [size_t] on 32-bit x86: the conversion of an integer to [size_t]. *)
Definition to_size_t (z : Z) : Z := z mod 2 ^ 32.

Definition INT_MIN : Z := - 2 ^ 31.
Definition INT_MAX : Z := 2 ^ 31 - 1.

(** Unary minus on [int].  The opposite of [INT_MIN] does not fit an
    [int]: the C expression overflows there, and the language leaves the
    result undefined.  The overflow is not wrapped around: the value is
    the mathematical opposite, [2 ^ 31] for [INT_MIN]. *)
Definition neg (z : Z) : Z := - z.

(** Conversion of an [int] to a [char] stored in memory, as a byte. *)
Definition to_char (z : Z) : Z := z mod 2 ^ 8.

Definition in_range (z : Z) : Prop := INT_MIN <= z <= INT_MAX.

End Int.

(** ** Kernel data *)

Module Kernel.

(** Addresses of kernel objects; a C pointer is [None] (NULL) or an
    address. *)
Definition loc := positive.
Definition ptr := option loc.
Definition NULL : ptr := None.

(** Modelled from the spec: [regs_t] is declared in a header outside the
    files modelled here.  Section 3 gives the Register Frame as
    all general-purpose registers, segment selectors, instruction
    pointer, stack pointer, processor flags, the trap vector and an
    error-code slot; [eax] is the one field [handler.c] reads. *)
Record regs_t : Type := mk_regs {
  ebp : Z; eax : Z; ebx : Z; ecx : Z; edx : Z; esi : Z; edi : Z;
  gs : Z; fs : Z; es : Z; ds : Z;
  int : Z; code : Z;
  eip : Z; cs : Z; eflags : Z; esp : Z; ss : Z
}.

Inductive proc_state : Type := Running | Blocked | Zombie.

(** Modelled from the spec: [process_t] is declared in a missing header.
    Section 3 lists identity, lifecycle state, the persisted frame
    [regs_state], the [syscalling] flag and the exit status. *)
Record process_t : Type := mk_process {
  pid : Z;
  parent : Z;
  state : proc_state;
  regs_state : regs_t;
  syscalling : bool;
  exit_status : Z
}.

Definition with_regs_state (v : regs_t) (d : process_t) : process_t :=
  {| pid := pid d; parent := parent d; state := state d;
     regs_state := v; syscalling := syscalling d;
     exit_status := exit_status d |}.

Definition with_syscalling (b : bool) (d : process_t) : process_t :=
  {| pid := pid d; parent := parent d; state := state d;
     regs_state := regs_state d; syscalling := b;
     exit_status := exit_status d |}.

(** The kernel state the modelled code can observe: the descriptors of
    the global process table, the register frames on kernel stacks, the
    process the scheduler considers current, and the CPU's
    interrupt-enable flag. *)
Record kstate : Type := mk_kstate {
  procs : gmap loc process_t;
  frames : gmap loc regs_t;
  running : ptr;
  iflag : bool
}.

Definition with_procs (m : gmap loc process_t) (s : kstate) : kstate :=
  {| procs := m; frames := frames s; running := running s;
     iflag := iflag s |}.

Definition with_iflag (b : bool) (s : kstate) : kstate :=
  {| procs := procs s; frames := frames s; running := running s;
     iflag := b |}.

(** *** The monad of kernel code *)

Inductive fault : Type :=
| NullDeref    (* dereference of NULL *)
| BadAccess.   (* dereference of an address holding no such object *)

Inductive outcome (A : Type) : Type :=
| Ok (a : A) (s : kstate)   (* returned [a], leaving state [s] *)
| Fault (e : fault)         (* undefined behaviour: invalid access *)
| NoReturn.                 (* control never came back to the caller *)
Arguments Ok {A} a s.
Arguments Fault {A} e.
Arguments NoReturn {A}.

Definition K (A : Type) : Type := kstate -> outcome A.

#[export] Instance K_ret : MRet K := fun A a s => Ok a s.

#[export] Instance K_bind : MBind K := fun A B f m s =>
  match m s with
  | Ok a s' => f a s'
  | Fault e => Fault e
  | NoReturn => NoReturn
  end.

(** *** Memory accesses through pointers *)

(** [*registers] *)
Definition load_regs (registers : ptr) : K regs_t := fun s =>
  match registers with
  | None => Fault NullDeref
  | Some l =>
    match frames s !! l with
    | Some f => Ok f s
    | None => Fault BadAccess
    end
  end.

(** [process->field = v], as an update [upd] of the descriptor. *)
Definition store_process (upd : process_t -> process_t) (process : ptr)
  : K unit := fun s =>
  match process with
  | None => Fault NullDeref
  | Some l =>
    match procs s !! l with
    | Some d => Ok tt (with_procs (<[l := upd d]> (procs s)) s)
    | None => Fault BadAccess
    end
  end.

(** [process->regs_state = v] *)
Definition store_regs_state (process : ptr) (v : regs_t) : K unit :=
  store_process (with_regs_state v) process.

(** [process->syscalling = b] *)
Definition store_syscalling (process : ptr) (b : bool) : K unit :=
  store_process (with_syscalling b) process.

(** Modelled from the spec: the macros [CLI()] and [STI()] come from
    [idt/idt.h], which is missing.  Section 4.5: "acquire masks
    interrupts on the current core; release unmasks them"; section 4.3:
    the dispatcher "re-enables interrupts".  They clear and set the
    interrupt-enable flag. *)
Definition CLI : K unit := fun s => Ok tt (with_iflag false s).
Definition STI : K unit := fun s => Ok tt (with_iflag true s).

(** Modelled from the spec: [get_running_process] is defined in a
    missing file.  Section 4.3: it "resolves the process descriptor of
    the currently executing process"; the caller's comment ("Check if
    NULL?") says it can yield NULL. *)
Definition get_running_process : K ptr := fun s => Ok (running s) s.

End Kernel.

(** ** [src/syscall/handler.c] *)

Module Handler.
Import Kernel.

Definition sys_ret_t := Z.

(** A syscall handler, called as [h(process, registers)]. *)
Definition handler_fn := ptr -> ptr -> K sys_ret_t.

(** [sys_handler_t]: a function pointer, NULL ([None]) for a hole. *)
Definition sys_handler_t := option handler_fn.

(** [SYSCALLS_COUNT], i.e. [sizeof(sys_handlers) / sizeof( *sys_handlers)]. *)
Definition SYSCALLS_COUNT (tbl : list sys_handler_t) : Z :=
  Z.of_nat (length tbl).

(** The guard of line 23,
    [id >= SYSCALLS_COUNT || !(h = sys_handlers[id])]:
    [None] when the guard holds, otherwise the handler bound to [h]. *)
Definition lookup_handler (tbl : list sys_handler_t) (id : Z)
  : option handler_fn :=
  if SYSCALLS_COUNT tbl <=? id then None
  else mjoin (tbl !! Z.to_nat id).

(** [syscall_handler], over the table it consults. *)
Definition syscall_handler_on (tbl : list sys_handler_t) (registers : ptr)
  : K sys_ret_t :=
  r ← load_regs registers;
  let id := Int.to_size_t (eax r) in
  match lookup_handler tbl id with
  | None =>
    (* TODO Bad syscall. Kill process? *)
    mret (-1)
  | Some h =>
    process ← get_running_process; (* TODO Check if NULL? *)
    f ← load_regs registers;
    store_regs_state process f;;
    store_syscalling process true;;
    STI;;
    ret ← h process registers;
    store_syscalling process false;;
    mret ret
  end.

(** Lines 32-34 on their own: the call of the resolved handler and what
    follows it. *)
Definition call_and_clear (h : handler_fn) (process registers : ptr)
  : K sys_ret_t :=
  ret ← h process registers;
  store_syscalling process false;;
  mret ret.

(** The state lines 29-31 leave, from state [s] in which the running
    process is at [p] with descriptor [d] and the trapped frame is [f]:
    the state in which the handler is entered. *)
Definition at_call (p : loc) (d : process_t) (f : regs_t) (s : kstate)
  : kstate :=
  with_iflag true
    (with_procs
       (<[p := with_syscalling true (with_regs_state f d)]> (procs s)) s).

Section Table.
(** The five handlers are defined elsewhere in the kernel. *)
Variables sys_write sys_fork sys_exit sys_getpid sys_waitpid : handler_fn.

Definition sys_handlers : list sys_handler_t :=
  [ Some sys_write;
    Some sys_fork;
    Some sys_exit;
    Some sys_getpid;
    Some sys_waitpid ].

Definition syscall_handler (registers : ptr) : K sys_ret_t :=
  syscall_handler_on sys_handlers registers.
End Table.

End Handler.

(** ** [src/util/lock.c] *)

Module Lock.
Import Kernel.

(** [void lock(spinlock_t *spinlock)]: the argument is evaluated and
    discarded ([(void) spinlock]); spinning is a TODO. *)
Definition lock (spinlock : ptr) : K unit :=
  CLI.

(** [void unlock(spinlock_t *spinlock)] *)
Definition unlock (spinlock : ptr) : K unit :=
  STI.

End Lock.

(** ** [src/test_process.c] *)

Module TestProcess.

(** Modelled from the spec: [write] is only declared here; it is the
    syscall number 0 of section 6, "(fd, buf, count)".  A user process
    observes it as [count] bytes of [buf] appended to the stream of
    descriptor [fd]; the state of the test process is what it has
    written to descriptor 1 so far. *)
Definition write (fd : Z) (buf : list Z) (count : nat) (out : list Z)
  : list Z :=
  if fd =? 1 then out ++ take count buf else out.

(** The arguments of the recursive calls one activation of [print_nbr]
    makes, in program order (lines 25-30). *)
Definition recursive_calls (nbr : Z) : list Z :=
  (if 10 <=? nbr then [nbr `quot` 10] else []) ++
  (if 10 <=? Int.neg nbr then [Int.neg nbr `quot` 10] else []).

(** [void print_nbr(int nbr)].  [fuel] bounds the number of nested
    activations; [None] means the bound was reached. *)
Fixpoint print_nbr (fuel : nat) (nbr : Z) (out : list Z)
  : option (list Z) :=
  match fuel with
  | O => None
  | S fuel =>
    let out := if nbr <? 0 then write 1 [45] 1 out else out in
    out ← (if 10 <=? nbr
           then print_nbr fuel (nbr `quot` 10) out
           else Some out);
    out ← (if 10 <=? Int.neg nbr
           then print_nbr fuel (Int.neg nbr `quot` 10) out
           else Some out);
    let c :=
      if 0 <=? nbr then Int.to_char (48 + nbr `rem` 10)
      else Int.to_char (48 + Int.neg nbr `rem` 10) in
    Some (write 1 [c] 1 out)
  end.

End TestProcess.

(** ** [kernel/arch/x86/src/context.s] *)

Module Ctx.

(** Symbols the stubs call. *)
Inductive symbol : Type := interrupt_handler | syscall_handler.

(** The instructions and macro calls that occur in the trap stubs. *)
Inductive instr : Type :=
| cld
| push (imm : Z)
| STORE_REGS
| xor_ebp_ebp
| push_esp
| call (target : symbol)
| add_esp (n : Z)
| LOAD_REGS
| iretd.

(** Global labels of the stubs. *)
Inductive label : Type :=
| Lerror (id : Z)    (* [error\id] *)
| Lirq (id : Z)      (* [irq\id] *)
| Lsyscall.          (* [syscall] *)

#[export] Instance label_eq_dec : EqDecision label.
Proof. solve_decision. Defined.

Record stub : Type := mk_stub { name : label; body : list instr }.

(** [.macro ERROR id] *)
Definition ERROR (id : Z) : stub :=
  {| name := Lerror id;
     body := [ cld;
               push 0; (* code (absent) *)
               push id;
               STORE_REGS;
               xor_ebp_ebp;
               push_esp;
               call interrupt_handler;
               add_esp 4;
               LOAD_REGS;
               add_esp 8;
               iretd ] |}.

(** [.macro ERROR_CODE id] *)
Definition ERROR_CODE (id : Z) : stub :=
  {| name := Lerror id;
     body := [ cld;
               push id;
               STORE_REGS;
               xor_ebp_ebp;
               push_esp;
               call interrupt_handler;
               add_esp 4;
               LOAD_REGS;
               add_esp 8;
               iretd ] |}.

(** [.macro IRQ id] *)
Definition IRQ (id : Z) : stub :=
  {| name := Lirq id;
     body := [ cld;
               push 0; (* code (absent) *)
               push (0x20 + id);
               STORE_REGS;
               xor_ebp_ebp;
               push_esp;
               call interrupt_handler;
               add_esp 4;
               LOAD_REGS;
               add_esp 8;
               iretd ] |}.

(** [syscall:] *)
Definition syscall : stub :=
  {| name := Lsyscall;
     body := [ cld;
               push 0; (* code (absent) *)
               push 0; (* interrupt ID (absent) *)
               STORE_REGS;
               xor_ebp_ebp;
               push_esp;
               call syscall_handler;
               add_esp 4;
               LOAD_REGS;
               add_esp 8;
               iretd ] |}.

(** The trap stubs of the file, in the order of their definition
    (lines 82-130 and 148).  [init_ctx] is not entered by a trap and is
    left out. *)
Definition context_s : list stub :=
  [ ERROR 0; ERROR 1; ERROR 2; ERROR 3; ERROR 4; ERROR 5; ERROR 6;
    ERROR 7; ERROR_CODE 8; ERROR 9; ERROR_CODE 10; ERROR_CODE 11;
    ERROR_CODE 12; ERROR_CODE 13; ERROR_CODE 14; ERROR 15; ERROR 16;
    ERROR_CODE 17; ERROR 18; ERROR 19; ERROR 20; ERROR 21; ERROR 22;
    ERROR 23; ERROR 24; ERROR 25; ERROR 26; ERROR 27; ERROR 28;
    ERROR 29; ERROR_CODE 30; ERROR 31;
    IRQ 0; IRQ 1; IRQ 2; IRQ 3; IRQ 4; IRQ 5; IRQ 6; IRQ 7; IRQ 8;
    IRQ 9; IRQ 10; IRQ 11; IRQ 12; IRQ 13; IRQ 14; IRQ 15;
    syscall ].

Section Entry.
(** [STORE_REGS] is a macro of [regs.s], which is missing: it pushes
    the interrupted code's registers, here the words [saved] (the
    first one ends up on top).  [LOAD_REGS] pops them again, after
    which [add esp, 8] drops the two words below them: the vector and
    the error code. *)
Variable saved : list Z.

(** Runs a stub from its entry, on the stack the hardware left
    (top first), up to [push esp], which passes the address of the
    stack top to the handler: the result is the stack at that point,
    i.e. the frame the handler is given. *)
Fixpoint build_frame (code : list instr) (stack : list Z)
  : option (list Z) :=
  match code with
  | cld :: code => build_frame code stack
  | push imm :: code => build_frame code (imm :: stack)
  | STORE_REGS :: code => build_frame code (saved ++ stack)
  | xor_ebp_ebp :: code => build_frame code stack
  | push_esp :: _ => Some stack
  | _ => None
  end.

(** The vector and error-code words of a frame. *)
Definition frame_int (frame : list Z) : option Z :=
  frame !! length saved.
Definition frame_code (frame : list Z) : option Z :=
  frame !! S (length saved).

(** The vector and the error code of the frame a stub hands to its
    handler when entered on hardware stack [hw]. *)
Definition entry_int (s : stub) (hw : list Z) : option Z :=
  build_frame (body s) hw ≫= frame_int.
Definition entry_code (s : stub) (hw : list Z) : option Z :=
  build_frame (body s) hw ≫= frame_code.
End Entry.

(** The function a stub dispatches to: the target of its first [call]. *)
Fixpoint call_target (code : list instr) : option symbol :=
  match code with
  | [] => None
  | call f :: _ => Some f
  | _ :: code => call_target code
  end.

(** The exception vectors for which the processor itself pushes an
    error code (the subset the specification calls "known"). *)
Definition hw_error_code_vectors : list Z := [8; 10; 11; 12; 13; 14; 17; 30].

End Ctx.

(** ** Sample data *)

Module Examples.
Import Kernel Handler.

(** A register frame that is zero except for [eax]. *)
Definition frame_with_eax (n : Z) : regs_t :=
  {| ebp := 0; eax := n; ebx := 0; ecx := 0; edx := 0; esi := 0; edi := 0;
     gs := 0; fs := 0; es := 0; ds := 0; int := 0; code := 0;
     eip := 0; cs := 0; eflags := 0; esp := 0; ss := 0 |}.

(** A running process, not in a syscall, last saved with [eax = n]. *)
Definition process_saved_at (n : Z) (in_syscall : bool) : process_t :=
  {| pid := 1; parent := 0; state := Running;
     regs_state := frame_with_eax n; syscalling := in_syscall;
     exit_status := 0 |}.

(** The state at the call of [syscall_handler] for syscall number [n]:
    the trapped frame is at address 1, the running process at address 2,
    interrupts are masked. *)
Definition trap_state (n : Z) : kstate :=
  {| procs := {[ 2%positive := process_saved_at 0 false ]};
     frames := {[ 1%positive := frame_with_eax n ]};
     running := Some 2%positive;
     iflag := false |}.

(** The same, without a running process. *)
Definition trap_state_idle (n : Z) : kstate :=
  {| procs := ∅;
     frames := {[ 1%positive := frame_with_eax n ]};
     running := NULL;
     iflag := false |}.

(** A handler that returns [v] and touches nothing. *)
Definition returns (v : Z) : handler_fn := fun _ _ => mret v.

(** A table with a hole at number 1. *)
Definition holed_table : list sys_handler_t := [Some (returns 0); None].

(** A state with interrupts masked. *)
Definition masked : kstate :=
  {| procs := ∅; frames := ∅; running := NULL; iflag := false |}.

End Examples.

(** ** Further definitions *)

(** *** Sequences of lock operations *)

Module LockSeq.
Import Kernel Lock.

(** A call of [lock] or of [unlock], with its argument. *)
Inductive lock_op : Type :=
| Acquire (spinlock : ptr)
| Release (spinlock : ptr).

Definition run_op (o : lock_op) : K unit :=
  match o with
  | Acquire spinlock => lock spinlock
  | Release spinlock => unlock spinlock
  end.

(** The calls of a list, one after the other. *)
Fixpoint run_ops (os : list lock_op) : K unit :=
  match os with
  | [] => mret tt
  | o :: os => run_op o;; run_ops os
  end.

End LockSeq.

(** *** Reading decimal text *)

Module Decimal.

(** The characters ['0'] to ['9']. *)
Definition is_digit (c : Z) : Prop := 48 <= c <= 57.

(** The number a string of digits denotes, most significant first. *)
Definition decimal_value (ds : list Z) : Z :=
  foldl (fun acc c => 10 * acc + (c - 48)) 0 ds.

(** The same with an optional leading ['-']. *)
Definition parse_int (cs : list Z) : Z :=
  match cs with
  | 45 :: ds => - decimal_value ds
  | _ => decimal_value cs
  end.

End Decimal.

(** *** [src/test_process.c]: [sig_handle] and [test_process] *)

Module TestMain.
Import TestProcess.

(** The string literals of the file as they lie in memory: the characters
    and the terminating NUL. *)
Definition str_sad : list Z :=        (* ":(\n" *)
  [58; 40; 10; 0].
Definition str_hello : list Z :=      (* "Hello world!\n" *)
  [72; 101; 108; 108; 111; 32; 119; 111; 114; 108; 100; 33; 10; 0].
Definition str_forked : list Z :=     (* "forked!\n" *)
  [102; 111; 114; 107; 101; 100; 33; 10; 0].
Definition str_waiting : list Z :=    (* "waiting\n" *)
  [119; 97; 105; 116; 105; 110; 103; 10; 0].
Definition str_ret : list Z :=        (* "ret: " *)
  [114; 101; 116; 58; 32; 0].
Definition str_status : list Z :=     (* "\nstatus: " *)
  [10; 115; 116; 97; 116; 117; 115; 58; 32; 0].

(** [void sig_handle(int sig)] *)
Definition sig_handle (sig : Z) (out : list Z) : list Z :=
  write 1 str_sad 3 out.

(** The calls into the kernel other than [write], with their arguments. *)
Inductive call_event : Type :=
| ev_fork
| ev_signal (signum : Z) (handler : Z -> list Z -> list Z)
| ev_getpid
| ev_kill (pid sig : Z)
| ev_exit (status : Z)
| ev_waitpid (pid wstatus options : Z).

(** What [hlt] does: it is a privileged instruction, refused with a
    fault outside ring 0; in ring 0 it stops the processor until an
    interrupt comes, if one ever does, and execution goes on after it. *)
Inductive hlt_result : Type :=
| hlt_faults
| hlt_resumes
| hlt_sleeps.

(** What the kernel and the processor answer: the functions are only
    declared in the file.  [exit_returns] tells whether [_exit], declared
    as an ordinary [void] function, comes back. *)
Record answers : Type := mk_answers {
  fork_ret : Z;
  getpid_ret : Z;
  waitpid_ret : Z;
  waitpid_wstatus : Z;     (* the value of [wstatus] after [waitpid] *)
  exit_returns : bool;
  hlt_does : hlt_result
}.

(** The state of the test process: the bytes [test_process] and the
    functions it calls have written to descriptor 1, and the other calls
    made, oldest first.  What a signal handler run by the kernel in
    between writes is not part of it. *)
Record ustate : Type := mk_ustate {
  out : list Z;
  calls : list call_event
}.

Definition put (buf : list Z) (count : nat) (s : ustate) : ustate :=
  {| out := write 1 buf count (out s); calls := calls s |}.

Definition log (e : call_event) (s : ustate) : ustate :=
  {| out := out s; calls := calls s ++ [e] |}.

(** How [test_process] ends. *)
Inductive ending : Type :=
| Exited (status : Z)   (* [_exit] took the process away *)
| Spinning              (* in [while (1);] for ever *)
| Faulted               (* [hlt] was refused *)
| Halted                (* stopped in [hlt] for ever *)
| Returned.             (* past [hlt], at the closing brace: it returns *)

(** [void test_process(void)], in the process that gets [fork_ret] from
    [fork].  [fuel] is the fuel given to each [print_nbr]. *)
Definition test_process (fuel : nat) (k : answers) (s : ustate)
  : option (ustate * ending) :=
  let s := put str_hello 13 s in
  let s := log ev_fork s in
  let pid := fork_ret k in
  if pid =? 0 then
    let s := put str_forked 8 s in
    let s := log (ev_signal 0 sig_handle) s in
    let s := log ev_getpid s in
    let s := log (ev_kill (getpid_ret k) 0) s in
    let s := log (ev_exit 43) s in
    if exit_returns k then
      (* asm("hlt"); then the end of the function *)
      Some (s, match hlt_does k with
               | hlt_faults => Faulted
               | hlt_resumes => Returned
               | hlt_sleeps => Halted
               end)
    else Some (s, Exited 43)
  else
    let s := put str_waiting 8 s in
    let wstatus := 42 in
    let s := log (ev_waitpid (-1) wstatus 0) s in
    let ret := waitpid_ret k in
    let wstatus := waitpid_wstatus k in
    let s := put str_ret 5 s in
    o ← print_nbr fuel ret (out s);
    let s := {| out := o; calls := calls s |} in
    let s := put str_status 9 s in
    o ← print_nbr fuel wstatus (out s);
    let s := {| out := o; calls := calls s |} in
    Some (s, Spinning).

End TestMain.

(** *** [context.s]: the stubs from entry to [iretd], and [init_ctx] *)

Module CtxRun.
Import Ctx.

(** The processor state the stubs act on: the stack (top first), the
    registers that [STORE_REGS] saves and [LOAD_REGS] restores, in the
    order of the saved words, the register [ebp] as the processor holds
    it, the direction flag and the data segment registers that
    [init_ctx] loads. *)
Record cpu : Type := mk_cpu {
  stack : list Z;
  regs : list Z;
  EBP : Z;
  DF : bool;
  ES : Z;
  DS : Z
}.

(** [esp], counted from the base of the stack. *)
Definition address_of (stack : list Z) : Z := - 4 * Z.of_nat (length stack).

Section Run.
(** The macros [STORE_REGS] and [LOAD_REGS] are in [regs.s], which is
    missing.  [nregs] is the number of words they push and pop.  Whether
    [ebp] and [eax] are among the registers they save is theirs to say:
    [zero_ebp] and [set_ax] are what writing [ebp] and [ax] does to the
    words [STORE_REGS] would save, and [load_ebp] is what [LOAD_REGS]
    leaves in [ebp], given the words it pops and the value before. *)
Variable nregs : nat.
Variable zero_ebp : list Z -> list Z.
Variable load_ebp : list Z -> Z -> Z.
Variable set_ax : Z -> list Z -> list Z.
(** The C functions the stubs call. *)
Variable handle : symbol -> cpu -> cpu.

(** One instruction other than [iretd].  [call] pushes a return address
    that the function's [ret] pops: the function is entered with its
    argument on top of the stack, and [handle] gives the state it comes
    back with. *)
Definition step (i : instr) (c : cpu) : option cpu :=
  match i with
  | cld =>
    Some {| stack := stack c; regs := regs c; EBP := EBP c;
            DF := false;
            ES := ES c; DS := DS c |}
  | push imm =>
    Some {| stack := imm :: stack c; regs := regs c; EBP := EBP c;
            DF := DF c;
            ES := ES c; DS := DS c |}
  | STORE_REGS =>
    Some {| stack := regs c ++ stack c; regs := regs c; EBP := EBP c;
            DF := DF c;
            ES := ES c; DS := DS c |}
  | xor_ebp_ebp =>
    Some {| stack := stack c; regs := zero_ebp (regs c); EBP := 0;
            DF := DF c;
            ES := ES c; DS := DS c |}
  | push_esp =>
    Some {| stack := address_of (stack c) :: stack c; regs := regs c;
            EBP := EBP c; DF := DF c; ES := ES c; DS := DS c |}
  | call f => Some (handle f c)
  | add_esp n =>
    if (0 <=? n) && (n mod 4 =? 0) && (n `div` 4 <=? Z.of_nat (length (stack c)))
    then Some {| stack := drop (Z.to_nat (n `div` 4)) (stack c);
                 regs := regs c; EBP := EBP c; DF := DF c;
                 ES := ES c; DS := DS c |}
    else None
  | LOAD_REGS =>
    if (nregs <=? length (stack c))%nat
    then Some {| stack := drop nregs (stack c);
                 regs := take nregs (stack c);
                 EBP := load_ebp (take nregs (stack c)) (EBP c);
                 DF := DF c;
                 ES := ES c; DS := DS c |}
    else None
  | iretd => None
  end.

(** Runs code up to its first [call]: the function called and the state
    it is entered in. *)
Fixpoint run_to_call (code : list instr) (c : cpu)
  : option (symbol * cpu) :=
  match code with
  | [] => None
  | call f :: _ => Some (f, c)
  | i :: code => step i c ≫= run_to_call code
  end.

(** Runs code up to [iretd]: the state in which [iretd] executes. *)
Fixpoint run (code : list instr) (c : cpu) : option cpu :=
  match code with
  | [] => None
  | iretd :: _ => Some c
  | i :: code => step i c ≫= run code
  end.

(** [init_ctx:], called with the address of a frame; [frame] is the
    memory from that address up, which [mov esp, [esp + 4]] makes the
    stack. *)
Definition init_ctx (frame : list Z) (c : cpu) : option cpu :=
  let ax := 0x23 in
  run [LOAD_REGS; add_esp 8; iretd]
    {| stack := frame; regs := set_ax ax (regs c); EBP := EBP c;
       DF := DF c;
       ES := ax; DS := ax |}.

End Run.

End CtxRun.

(** *** More sample data *)

Module Samples.
Import Kernel Handler CtxRun.

(** A handler that never returns. *)
Definition never_returns : handler_fn := fun _ _ _ => NoReturn.

(** The state at a call of [syscall_handler] for number 3 by a process
    whose [syscalling] flag is already set. *)
Definition in_syscall_state : kstate :=
  {| procs := {[ 2%positive := Examples.process_saved_at 0 true ]};
     frames := {[ 1%positive := Examples.frame_with_eax 3 ]};
     running := Some 2%positive;
     iflag := false |}.

(** The macros of [regs.s] as they would be if [ebp] were the first
    register saved: zeroing [ebp] zeroes the first word [STORE_REGS]
    would save, and [LOAD_REGS] loads [ebp] with the first word it
    pops. *)
Definition ebp_first_zero (rs : list Z) : list Z := <[0%nat := 0]> rs.
Definition ebp_first_load (ws : list Z) (before : Z) : Z :=
  default before (head ws).

(** A C function in the manner of [fork]: it writes [v] in the third
    saved register of the frame whose address it is handed (the fourth
    word of the stack), and comes back with the registers it may use
    overwritten. *)
Definition set_slot (v : Z) (f : Ctx.symbol) (c : cpu) : cpu :=
  {| stack := <[3%nat := v]> (stack c); regs := [0; 0; 0]; EBP := EBP c;
     DF := DF c;
     ES := ES c; DS := DS c |}.

(** A C function that leaves the stack alone. *)
Definition clobber (f : Ctx.symbol) (c : cpu) : cpu :=
  {| stack := stack c; regs := [0; 0; 0]; EBP := EBP c; DF := DF c;
     ES := ES c; DS := DS c |}.

(** Answers of the kernel to the parent: child 5 exited with status 43. *)
Definition parent_answers : TestMain.answers :=
  {| TestMain.fork_ret := 5; TestMain.getpid_ret := 4;
     TestMain.waitpid_ret := 5; TestMain.waitpid_wstatus := 43;
     TestMain.exit_returns := false;
     TestMain.hlt_does := TestMain.hlt_faults |}.

Definition fresh : TestMain.ustate :=
  {| TestMain.out := []; TestMain.calls := [] |}.

(** A processor state with three saved registers and a hardware frame of
    four words, the first being an error code. *)
Definition trapped : cpu :=
  {| stack := [77; 1; 2; 3]; regs := [11; 12; 13]; EBP := 99;
     DF := true;
     ES := 0; DS := 0 |}.

End Samples.

(** * Properties *)

(** ** The kernel monad *)

Section MonadLaws.
Import Kernel.

Lemma bind_unfold {A B} (m : K A) (k : A -> K B) (s : kstate) :
  (m ≫= k) s =
  match m s with
  | Ok a s' => k a s'
  | Fault e => Fault e
  | NoReturn => NoReturn
  end.
Proof. reflexivity. Qed.

Lemma bind_Ok {A B} (m : K A) (k : A -> K B) s a s' :
  m s = Ok a s' -> (m ≫= k) s = k a s'.
Proof. intros E. rewrite bind_unfold, E. reflexivity. Qed.

Lemma load_regs_Some (l : loc) (s : kstate) (f : regs_t) :
  frames s !! l = Some f -> load_regs (Some l) s = Ok f s.
Proof. intros E. unfold load_regs. rewrite E. reflexivity. Qed.

Lemma store_process_Some upd (l : loc) (s : kstate) (d : process_t) :
  procs s !! l = Some d ->
  store_process upd (Some l) s
  = Ok tt (with_procs (<[l := upd d]> (procs s)) s).
Proof. intros E. unfold store_process. rewrite E. reflexivity. Qed.

End MonadLaws.

(** ** The syscall dispatcher *)

Section Dispatch.
Import Kernel Handler.

Lemma lookup_handler_None (tbl : list sys_handler_t) (id : Z) :
  0 <= id ->
  lookup_handler tbl id = None <->
  SYSCALLS_COUNT tbl <= id \/ tbl !! Z.to_nat id = Some None.
Proof.
  intros Hid. unfold lookup_handler, SYSCALLS_COUNT.
  destruct (Z.leb_spec (Z.of_nat (length tbl)) id) as [Hge | Hlt].
  - split; [left; assumption | reflexivity].
  - pose proof (lookup_lt_is_Some_2 tbl (Z.to_nat id)) as Hin.
    destruct (tbl !! Z.to_nat id) as [x |] eqn:Hx.
    + simpl. split.
      * intros ->. right. reflexivity.
      * intros [Hge | Heq]; [lia | congruence].
    + destruct Hin as [? ?]; [lia | discriminate].
Qed.

Lemma lookup_handler_Some (tbl : list sys_handler_t) (id : Z) h :
  0 <= id ->
  lookup_handler tbl id = Some h <->
  id < SYSCALLS_COUNT tbl /\ tbl !! Z.to_nat id = Some (Some h).
Proof.
  intros Hid. unfold lookup_handler, SYSCALLS_COUNT.
  destruct (Z.leb_spec (Z.of_nat (length tbl)) id) as [Hge | Hlt].
  - split; [discriminate | lia].
  - pose proof (lookup_lt_is_Some_2 tbl (Z.to_nat id)) as Hin.
    destruct (tbl !! Z.to_nat id) as [x |] eqn:Hx.
    + simpl. split.
      * intros ->. split; [assumption | reflexivity].
      * intros [_ Heq]. congruence.
    + destruct Hin as [? ?]; [lia | discriminate].
Qed.

Lemma to_size_t_nonneg (z : Z) : 0 <= Int.to_size_t z.
Proof. unfold Int.to_size_t. apply Z.mod_pos_bound. lia. Qed.

(** The two exits of [syscall_handler], by the outcome of the lookup. *)
Lemma syscall_handler_on_bad tbl (registers : loc) s f :
  frames s !! registers = Some f ->
  lookup_handler tbl (Int.to_size_t (eax f)) = None ->
  syscall_handler_on tbl (Some registers) s = Ok (-1) s.
Proof.
  intros Hf Hl. unfold syscall_handler_on.
  rewrite (bind_Ok _ _ _ _ _ (load_regs_Some _ _ _ Hf)).
  rewrite Hl. reflexivity.
Qed.

Lemma syscall_handler_on_good tbl (registers p : loc) s f h d :
  frames s !! registers = Some f ->
  lookup_handler tbl (Int.to_size_t (eax f)) = Some h ->
  running s = Some p ->
  procs s !! p = Some d ->
  syscall_handler_on tbl (Some registers) s
  = call_and_clear h (Some p) (Some registers) (at_call p d f s).
Proof.
  intros Hf Hl Hp Hd. unfold syscall_handler_on.
  rewrite (bind_Ok _ _ _ _ _ (load_regs_Some _ _ _ Hf)).
  rewrite Hl.
  rewrite bind_unfold. unfold get_running_process at 1. rewrite Hp.
  rewrite (bind_Ok _ _ _ _ _ (load_regs_Some _ _ _ Hf)).
  unfold store_regs_state, store_syscalling, call_and_clear.
  rewrite (bind_Ok _ _ _ _ _ (store_process_Some _ _ _ _ Hd)).
  rewrite bind_unfold.
  rewrite (store_process_Some _ p _ (with_regs_state f d))
    by (simpl; apply lookup_insert_eq).
  simpl procs. rewrite insert_insert_eq.
  rewrite bind_unfold. unfold STI at 1.
  reflexivity.
Qed.

(** After the handler: the store that clears the flag decides. *)
Lemma call_and_clear_outcome (h : handler_fn) (p : loc) registers s :
  call_and_clear h (Some p) registers s
  = match h (Some p) registers s with
    | Ok r s2 =>
      match procs s2 !! p with
      | Some d2 =>
        Ok r (with_procs (<[p := with_syscalling false d2]> (procs s2)) s2)
      | None => Fault BadAccess
      end
    | Fault e => Fault e
    | NoReturn => NoReturn
    end.
Proof.
  unfold call_and_clear. rewrite bind_unfold.
  destruct (h (Some p) registers s) as [r s2 | e |]; try reflexivity.
  rewrite bind_unfold. unfold store_syscalling, store_process.
  destruct (procs s2 !! p); reflexivity.
Qed.

End Dispatch.

Section DispatchClaims.
Import Kernel Handler.

(** C1. For a syscall number that is out of range of the table or whose
    entry is a hole, [syscall_handler] returns -1 and leaves the whole
    kernel state as it was: no descriptor (so neither [regs_state] nor
    [syscalling]) and no register frame is written, the interrupt flag
    and the running process are the same, and control returns to the
    caller.  The table is arbitrary, so no handler in it can have been
    run, and the running process may even be absent. *)
Theorem syscall_handler_invalid_number
    (tbl : list sys_handler_t) (registers : loc) (s : kstate) (f : regs_t) :
  frames s !! registers = Some f ->
  SYSCALLS_COUNT tbl <= Int.to_size_t (eax f) \/
  tbl !! Z.to_nat (Int.to_size_t (eax f)) = Some None ->
  syscall_handler_on tbl (Some registers) s = Ok (-1) s.
Proof.
  intros Hf Hbad.
  apply (syscall_handler_on_bad _ _ _ _ Hf).
  apply lookup_handler_None; [apply to_size_t_nonneg | exact Hbad].
Qed.

(** C2. For a valid syscall number with handler [h], when [p] is the
    running process with descriptor [d], [syscall_handler] calls
    [h(p, registers)] in the state that differs from the one on entry in
    exactly this: [p->regs_state] is the trapped frame, [p->syscalling]
    is true, and interrupts are enabled; every other field of [d], every
    other descriptor, the frames and the running process are as on
    entry.  When [h] returns [r] leaving [p]'s descriptor as [d2],
    [syscall_handler] returns [r] in the state [h] left but for
    [p->syscalling], which is false.  The states are written out field by
    field. *)
Theorem syscall_handler_valid_number
    (tbl : list sys_handler_t) (registers p : loc) (s s2 : kstate)
    (f : regs_t) (h : handler_fn) (d d2 : process_t) (r : sys_ret_t) :
  frames s !! registers = Some f ->
  Int.to_size_t (eax f) < SYSCALLS_COUNT tbl ->
  tbl !! Z.to_nat (Int.to_size_t (eax f)) = Some (Some h) ->
  running s = Some p ->
  procs s !! p = Some d ->
  h (Some p) (Some registers)
    {| procs :=
         <[p := {| pid := pid d; parent := parent d; state := state d;
                   regs_state := f; syscalling := true;
                   exit_status := exit_status d |}]> (procs s);
       frames := frames s;
       running := running s;
       iflag := true |}
  = Ok r s2 ->
  procs s2 !! p = Some d2 ->
  syscall_handler_on tbl (Some registers) s
  = Ok r
      {| procs :=
           <[p := {| pid := pid d2; parent := parent d2; state := state d2;
                     regs_state := regs_state d2; syscalling := false;
                     exit_status := exit_status d2 |}]> (procs s2);
         frames := frames s2;
         running := running s2;
         iflag := iflag s2 |}.
Proof.
  intros Hf Hlt Hv Hp Hd Hh Hd2.
  pose proof (proj2 (lookup_handler_Some _ _ h (to_size_t_nonneg _))
                (conj Hlt Hv)) as Hl. clear Hlt Hv. rename Hl into Hv.
  rewrite (syscall_handler_on_good _ _ _ _ _ _ _ Hf Hv Hp Hd).
  rewrite call_and_clear_outcome.
  change (at_call p d f s)
    with {| procs :=
              <[p := {| pid := pid d; parent := parent d; state := state d;
                        regs_state := f; syscalling := true;
                        exit_status := exit_status d |}]> (procs s);
            frames := frames s;
            running := running s;
            iflag := true |}.
  rewrite Hh, Hd2. reflexivity.
Qed.

(** C6. Let [p] be the running process, with [syscalling] false on
    entry.  If the lookup fails, nothing is written.  If it resolves a
    handler, the handler is entered in a state where [p->syscalling] is
    true and interrupts are enabled, and the flag is cleared after it.
    Whenever [syscall_handler] returns, [p->syscalling] is false. *)
Theorem syscalling_only_during_dispatch
    (tbl : list sys_handler_t) (registers p : loc) (s : kstate)
    (f : regs_t) (d : process_t) :
  frames s !! registers = Some f ->
  running s = Some p ->
  procs s !! p = Some d ->
  syscalling d = false ->
  match lookup_handler tbl (Int.to_size_t (eax f)) with
  | None => syscall_handler_on tbl (Some registers) s = Ok (-1) s
  | Some h =>
    exists s1,
      syscalling <$> procs s1 !! p = Some true /\
      iflag s1 = true /\
      syscall_handler_on tbl (Some registers) s
      = call_and_clear h (Some p) (Some registers) s1
  end /\
  forall r s',
    syscall_handler_on tbl (Some registers) s = Ok r s' ->
    syscalling <$> procs s' !! p = Some false.
Proof.
  intros Hf Hp Hd Hflag.
  destruct (lookup_handler tbl (Int.to_size_t (eax f))) as [h |] eqn:Hl.
  - pose proof (syscall_handler_on_good _ _ _ _ _ _ _ Hf Hl Hp Hd) as E.
    split.
    + exists (at_call p d f s). split; [| split].
      * unfold at_call. simpl. rewrite lookup_insert_eq. reflexivity.
      * reflexivity.
      * exact E.
    + intros r s'. rewrite E. unfold call_and_clear.
      rewrite bind_unfold.
      destruct (h (Some p) (Some registers) (at_call p d f s))
        as [r2 s2 | e |]; try discriminate.
      rewrite bind_unfold. unfold store_syscalling, store_process.
      destruct (procs s2 !! p) as [d2 |]; try discriminate.
      intros [= _ <-]. simpl. rewrite lookup_insert_eq. reflexivity.
  - pose proof (syscall_handler_on_bad _ _ _ _ Hf Hl) as E.
    split; [exact E |].
    intros r s'. rewrite E. intros [= _ <-].
    rewrite Hd. simpl. rewrite Hflag. reflexivity.
Qed.

(** C8. For a valid syscall number, the result of
    [get_running_process()] is dereferenced without a test: if it is
    NULL the outcome is a null dereference, whatever the handler; an
    execution free of faults needs a running process whose descriptor
    exists. *)
Theorem syscall_handler_needs_running_process
    (tbl : list sys_handler_t) (registers : loc) (s : kstate)
    (f : regs_t) (h : handler_fn) :
  frames s !! registers = Some f ->
  Int.to_size_t (eax f) < SYSCALLS_COUNT tbl ->
  tbl !! Z.to_nat (Int.to_size_t (eax f)) = Some (Some h) ->
  (running s = NULL ->
   syscall_handler_on tbl (Some registers) s = Fault NullDeref) /\
  ((forall e, syscall_handler_on tbl (Some registers) s <> Fault e) ->
   exists p d, running s = Some p /\ procs s !! p = Some d).
Proof.
  intros Hf Hlt Hv.
  pose proof (proj2 (lookup_handler_Some _ _ h (to_size_t_nonneg _))
                (conj Hlt Hv)) as Hl. clear Hlt Hv. rename Hl into Hv.
  assert (E : syscall_handler_on tbl (Some registers) s
              = (store_regs_state (running s) f;;
                 store_syscalling (running s) true;;
                 STI;;
                 call_and_clear h (running s) (Some registers)) s).
  { unfold syscall_handler_on.
    rewrite (bind_Ok _ _ _ _ _ (load_regs_Some _ _ _ Hf)).
    rewrite Hv. rewrite bind_unfold. unfold get_running_process at 1.
    rewrite (bind_Ok _ _ _ _ _ (load_regs_Some _ _ _ Hf)).
    reflexivity. }
  rewrite E. clear E. unfold NULL.
  destruct (running s) as [p |] eqn:Hp.
  - destruct (procs s !! p) as [d |] eqn:Hd.
    + split; [discriminate |]. intros _. exists p, d.
      split; [reflexivity | exact Hd].
    + split; [discriminate |]. intros H. destruct (H BadAccess).
      rewrite bind_unfold. unfold store_regs_state, store_process.
      rewrite Hd. reflexivity.
  - split; [intros _; reflexivity |].
    intros H. destruct (H NullDeref). reflexivity.
Qed.

End DispatchClaims.

Section TableClaims.
Import Kernel Handler.

Lemma sys_handlers_lookup (w k e g wp : handler_fn) (id : Z) :
  0 <= id ->
  lookup_handler (sys_handlers w k e g wp) id
  = if 5 <=? id then None
    else nth (Z.to_nat id) [Some w; Some k; Some e; Some g] (Some wp).
Proof.
  intros Hid. unfold lookup_handler, SYSCALLS_COUNT, sys_handlers.
  simpl length. change (Z.of_nat 5) with 5.
  destruct (Z.leb_spec 5 id) as [Hge | Hlt]; [reflexivity |].
  assert (Hc : id = 0 \/ id = 1 \/ id = 2 \/ id = 3 \/ id = 4) by lia.
  destruct Hc as [-> | [-> | [-> | [-> | ->]]]]; reflexivity.
Qed.

(** C9. The table has exactly the five entries [sys_write], [sys_fork],
    [sys_exit], [sys_getpid], [sys_waitpid] at numbers 0 to 4 and no
    hole, its lookup fails exactly for numbers from 5 on, and
    [syscall_handler] takes its error exit (returns -1 with the state
    untouched, whatever the handlers would do) if and only if the
    requested number is at least 5. *)
Theorem sys_handlers_dense (registers : loc) (s : kstate) (f : regs_t) :
  frames s !! registers = Some f ->
  (forall w k e g wp : handler_fn,
      SYSCALLS_COUNT (sys_handlers w k e g wp) = 5 /\
      sys_handlers w k e g wp
      = [Some w; Some k; Some e; Some g; Some wp] /\
      (forall n : nat, sys_handlers w k e g wp !! n <> Some None) /\
      (forall id, 0 <= id ->
         lookup_handler (sys_handlers w k e g wp) id = None <-> 5 <= id)) /\
  ((forall w k e g wp : handler_fn,
       syscall_handler w k e g wp (Some registers) s = Ok (-1) s) <->
   5 <= Int.to_size_t (eax f)).
Proof.
  intros Hf. split.
  - intros w k e g wp. split; [reflexivity |]. split; [reflexivity |].
    split.
    + intros n. unfold sys_handlers.
      do 5 (destruct n as [| n]; [discriminate |]). discriminate.
    + intros id Hid. rewrite sys_handlers_lookup by assumption.
      destruct (Z.leb_spec 5 id) as [Hge | Hlt].
      * split; [intros _; assumption | reflexivity].
      * split; [| lia].
        assert (Hc : id = 0 \/ id = 1 \/ id = 2 \/ id = 3 \/ id = 4) by lia.
        destruct Hc as [-> | [-> | [-> | [-> | ->]]]]; discriminate.
  - pose proof (to_size_t_nonneg (eax f)) as Hid.
    split.
    + intros H.
      set (stuck := (fun _ _ _ => NoReturn) : handler_fn).
      specialize (H stuck stuck stuck stuck stuck).
      destruct (Z.leb_spec 5 (Int.to_size_t (eax f))) as [Hge | Hlt];
        [assumption | exfalso].
      assert (Hl : lookup_handler
                     (sys_handlers stuck stuck stuck stuck stuck)
                     (Int.to_size_t (eax f)) = Some stuck).
      { rewrite sys_handlers_lookup by assumption.
        destruct (Z.leb_spec 5 (Int.to_size_t (eax f))); [lia |].
        assert (Hc : Int.to_size_t (eax f) = 0 \/ Int.to_size_t (eax f) = 1
                     \/ Int.to_size_t (eax f) = 2
                     \/ Int.to_size_t (eax f) = 3
                     \/ Int.to_size_t (eax f) = 4) by lia.
        destruct Hc as [-> | [-> | [-> | [-> | ->]]]]; reflexivity. }
      revert H. unfold syscall_handler.
      destruct (running s) as [p |] eqn:Hp.
      * destruct (procs s !! p) as [d |] eqn:Hd.
        -- rewrite (syscall_handler_on_good _ _ _ _ _ _ _ Hf Hl Hp Hd).
           discriminate.
        -- unfold syscall_handler_on.
           rewrite (bind_Ok _ _ _ _ _ (load_regs_Some _ _ _ Hf)).
           rewrite Hl. rewrite bind_unfold.
           unfold get_running_process at 1. rewrite Hp.
           rewrite (bind_Ok _ _ _ _ _ (load_regs_Some _ _ _ Hf)).
           rewrite bind_unfold. unfold store_regs_state, store_process.
           rewrite Hd. discriminate.
      * unfold syscall_handler_on.
        rewrite (bind_Ok _ _ _ _ _ (load_regs_Some _ _ _ Hf)).
        rewrite Hl. rewrite bind_unfold.
        unfold get_running_process at 1. rewrite Hp.
        rewrite (bind_Ok _ _ _ _ _ (load_regs_Some _ _ _ Hf)).
        discriminate.
    + intros Hge w k e g wp. unfold syscall_handler.
      apply (syscall_handler_on_bad _ _ _ _ Hf).
      rewrite sys_handlers_lookup by assumption.
      destruct (Z.leb_spec 5 (Int.to_size_t (eax f))); [reflexivity | lia].
Qed.

End TableClaims.

(** ** The interrupt-mask lock *)

Section LockClaims.
Import Kernel Lock.

(** C5, as the code has it.  [lock] followed by [unlock] returns with
    interrupts enabled, whatever the state before and whatever the
    lock, and changes nothing else; the interrupt-enable state is
    therefore the one before [lock] exactly when interrupts were
    enabled then. *)
Theorem lock_unlock_enables_interrupts (spinlock : ptr) (s : kstate) :
  (lock spinlock;; unlock spinlock) s = Ok tt (with_iflag true s) /\
  (with_iflag true s = s <-> iflag s = true).
Proof.
  split; [reflexivity |].
  split.
  - intros E. rewrite <- E. reflexivity.
  - intros E. destruct s as [ps fs r i]. simpl in E. subst i. reflexivity.
Qed.

End LockClaims.

(** ** [print_nbr] *)

Section PrintNbr.
Import TestProcess.

Lemma neg_opp (z : Z) : Int.neg z = - z.
Proof. reflexivity. Qed.

(** [-nbr >= 10] holds exactly for [nbr <= -10], [INT_MIN] included. *)
Lemma neg_ge_10 (z : Z) : 10 <= Int.neg z <-> z <= -10.
Proof. rewrite neg_opp. lia. Qed.

Lemma quot10_lt (n : Z) (d : nat) :
  10 <= n -> n < 10 ^ Z.of_nat (S d) ->
  0 <= n `quot` 10 < n /\ n `quot` 10 < 10 ^ Z.of_nat d /\ (0 < d)%nat.
Proof.
  intros Hn Hd.
  rewrite Nat2Z.inj_succ, Z.pow_succ_r in Hd by lia.
  rewrite Z.quot_div_nonneg by lia.
  assert (Hq : 0 <= n / 10 < n).
  { split; [apply Z.div_pos; lia | apply Z.div_lt; lia]. }
  split; [exact Hq |]. split.
  - apply Z.div_lt_upper_bound; lia.
  - destruct d as [| d]; [simpl in Hd; lia | lia].
Qed.

Lemma recursive_calls_spec (nbr : Z) :
  Int.in_range nbr ->
  recursive_calls nbr
  = if 10 <=? nbr then [nbr `quot` 10]
    else if nbr <=? -10 then [(- nbr) `quot` 10] else [].
Proof.
  intros Hr. unfold recursive_calls.
  pose proof (neg_ge_10 nbr) as Hneg.
  destruct (Z.leb_spec 10 nbr) as [H1 | H1].
  - destruct (Z.leb_spec 10 (Int.neg nbr)) as [H2 | H2]; [lia |].
    reflexivity.
  - destruct (Z.leb_spec nbr (-10)) as [H3 | H3].
    + destruct (Z.leb_spec 10 (Int.neg nbr)) as [H2 | H2]; [| lia].
      reflexivity.
    + destruct (Z.leb_spec 10 (Int.neg nbr)) as [H2 | H2];
        [lia | reflexivity].
Qed.

(** One activation in terms of the calls it makes: [print_nbr] runs
    the calls of [recursive_calls] in order, between the sign and the
    last digit. *)
Lemma print_nbr_calls (fuel : nat) (nbr : Z) (out : list Z) :
  print_nbr (S fuel) nbr out
  = foldl (fun acc a => acc ≫= print_nbr fuel a)
      (Some (if nbr <? 0 then write 1 [45] 1 out else out))
      (recursive_calls nbr)
    ≫= fun out =>
      Some (write 1
              [if 0 <=? nbr then Int.to_char (48 + nbr `rem` 10)
               else Int.to_char (48 + Int.neg nbr `rem` 10)] 1 out).
Proof.
  unfold recursive_calls. simpl print_nbr.
  destruct (10 <=? nbr); destruct (10 <=? Int.neg nbr); simpl;
    try reflexivity;
    destruct (print_nbr fuel _ _); reflexivity.
Qed.

Lemma print_nbr_returns (d : nat) :
  forall (nbr : Z) (out : list Z),
    Int.in_range nbr -> (0 < d)%nat -> Z.abs nbr < 10 ^ Z.of_nat d ->
    is_Some (print_nbr d nbr out).
Proof.
  induction d as [| d IH]; intros nbr out Hr Hd Habs; [lia |].
  rewrite print_nbr_calls, recursive_calls_spec by assumption.
  set (out0 := if nbr <? 0 then write 1 [45] 1 out else out).
  clearbody out0.
  assert (Hr' : Int.INT_MIN <= nbr <= Int.INT_MAX) by exact Hr.
  unfold Int.INT_MIN, Int.INT_MAX in Hr'.
  destruct (Z.leb_spec 10 nbr) as [H1 | H1].
  - destruct (quot10_lt nbr d) as (Hq & Hlt & Hpos); [lia | lia |].
    destruct (IH (nbr `quot` 10) out0) as [o Ho].
    + unfold Int.in_range, Int.INT_MIN, Int.INT_MAX. lia.
    + assumption.
    + lia.
    + simpl. rewrite Ho. simpl. eauto.
  - destruct (Z.leb_spec nbr (-10)) as [H3 | H3]; [| simpl; eauto].
    destruct (quot10_lt (- nbr) d) as (Hq & Hlt & Hpos); [lia | lia |].
    destruct (IH ((- nbr) `quot` 10) out0) as [o Ho].
    + unfold Int.in_range, Int.INT_MIN, Int.INT_MAX. lia.
    + assumption.
    + lia.
    + simpl. rewrite Ho. simpl. eauto.
Qed.

(** C10. For every [int] argument, [INT_MIN] included (whose recursive
    call is on 214748364), each recursive call [print_nbr] makes has an
    argument of strictly smaller magnitude (and is again an [int]); hence
    a call on a number of at most [d] decimal digits returns within [d]
    nested activations, and every call returns within 10. *)
Theorem print_nbr_terminates (nbr : Z) :
  Int.in_range nbr ->
  Forall (fun a => Z.abs a < Z.abs nbr /\ Int.in_range a)
    (recursive_calls nbr) /\
  (forall (d : nat) (out : list Z),
      (0 < d)%nat -> Z.abs nbr < 10 ^ Z.of_nat d ->
      is_Some (print_nbr d nbr out)) /\
  (forall out : list Z, is_Some (print_nbr 10 nbr out)).
Proof.
  intros Hr. split; [| split].
  - rewrite recursive_calls_spec by assumption.
    assert (Hr' : Int.INT_MIN <= nbr <= Int.INT_MAX) by exact Hr.
    unfold Int.in_range, Int.INT_MIN, Int.INT_MAX in *.
    destruct (Z.leb_spec 10 nbr) as [H1 | H1].
    + constructor; [| constructor].
      rewrite Z.quot_div_nonneg by lia.
      assert (0 <= nbr / 10 < nbr)
        by (split; [apply Z.div_pos; lia | apply Z.div_lt; lia]).
      lia.
    + destruct (Z.leb_spec nbr (-10)) as [H3 | H3]; [| constructor].
      constructor; [| constructor].
      rewrite Z.quot_div_nonneg by lia.
      assert (0 <= (- nbr) / 10 < - nbr)
        by (split; [apply Z.div_pos; lia | apply Z.div_lt; lia]).
      lia.
  - intros d out Hd Habs. apply print_nbr_returns; assumption.
  - intros out. apply print_nbr_returns; [assumption | lia |].
    unfold Int.in_range, Int.INT_MIN, Int.INT_MAX in Hr.
    change (Z.of_nat 10) with 10. lia.
Qed.

End PrintNbr.

(** ** The trap entry stubs *)

Section StubClaims.
Import Ctx.

Variable saved : list Z.

Lemma frame_int_at (v : Z) (below : list Z) :
  frame_int saved (saved ++ v :: below) = Some v.
Proof. unfold frame_int. apply list_lookup_middle. reflexivity. Qed.

Lemma frame_code_at (v c : Z) (hw : list Z) :
  frame_code saved (saved ++ v :: c :: hw) = Some c.
Proof.
  unfold frame_code.
  change (saved ++ v :: c :: hw) with (saved ++ [v] ++ c :: hw).
  rewrite app_assoc. apply list_lookup_middle.
  rewrite length_app. simpl. lia.
Qed.

Lemma frame_code_hw (v : Z) (hw : list Z) :
  frame_code saved (saved ++ v :: hw) = head hw.
Proof.
  unfold frame_code.
  rewrite lookup_app_r by lia.
  replace (S (length saved) - length saved)%nat with 1%nat by lia.
  destruct hw; reflexivity.
Qed.

(** What each macro builds. *)
Lemma build_frame_ERROR (id : Z) (hw : list Z) :
  build_frame saved (body (ERROR id)) hw = Some (saved ++ id :: 0 :: hw).
Proof. reflexivity. Qed.

Lemma build_frame_ERROR_CODE (id : Z) (hw : list Z) :
  build_frame saved (body (ERROR_CODE id)) hw = Some (saved ++ id :: hw).
Proof. reflexivity. Qed.

Lemma build_frame_IRQ (id : Z) (hw : list Z) :
  build_frame saved (body (IRQ id)) hw
  = Some (saved ++ (32 + id) :: 0 :: hw).
Proof. reflexivity. Qed.

Lemma build_frame_syscall (hw : list Z) :
  build_frame saved (body syscall) hw = Some (saved ++ 0 :: 0 :: hw).
Proof. reflexivity. Qed.

(** The stubs of the file, one per exception vector, IRQ line and for
    the syscall. *)
Lemma context_s_names :
  name <$> context_s
  = (Lerror <$> seqZ 0 32) ++ (Lirq <$> seqZ 0 16) ++ [Lsyscall].
Proof. reflexivity. Qed.

(** Case analysis on a stub of the file. *)
Ltac each_stub H :=
  unfold context_s in H; decompose_list_elem_of; subst.

Ltac run_stub :=
  unfold entry_int, entry_code;
  rewrite ?build_frame_ERROR, ?build_frame_ERROR_CODE, ?build_frame_IRQ,
    ?build_frame_syscall;
  simpl mbind;
  rewrite ?frame_int_at, ?frame_code_at, ?frame_code_hw.

(** C3. The file has one stub per exception vector 0-31, per IRQ line
    0-15 and for the syscall.  Entered on the hardware stack [hw], the
    stub of an exception vector in the subset 8, 10, 11, 12, 13, 14, 17,
    30 pushes no placeholder: the error code of its frame is the word
    the processor left on top of the stack.  Every other stub (the
    remaining exceptions, every IRQ, the syscall) pushes 0 there. *)
Theorem error_code_discipline (s : stub) (hw : list Z) :
  s ∈ context_s ->
  name <$> context_s
  = (Lerror <$> seqZ 0 32) ++ (Lirq <$> seqZ 0 16) ++ [Lsyscall] /\
  entry_code saved s hw
  = match name s with
    | Lerror id =>
      if bool_decide (id ∈ hw_error_code_vectors) then head hw else Some 0
    | Lirq _ | Lsyscall => Some 0
    end.
Proof.
  intros Hs. split; [exact context_s_names |].
  each_stub Hs; run_stub; reflexivity.
Qed.

(** C4, as the code has it.  The syscall stub records the fixed number
    0 in the vector slot of its frame.  That number is outside the IRQ
    range 32-47 but inside the exception range: it is the vector of
    exception 0, and no other stub records it.  What sets a syscall trap
    apart from every exception and IRQ is the function its stub calls:
    [syscall_handler] for the syscall stub alone, [interrupt_handler]
    for all the others. *)
Theorem syscall_vector_is_placeholder (s : stub) (hw hw' : list Z) :
  s ∈ context_s ->
  entry_int saved syscall hw = Some 0 /\
  (entry_int saved s hw' = entry_int saved syscall hw <->
   name s = Lsyscall \/ name s = Lerror 0) /\
  call_target (body s)
  = Some (if decide (name s = Lsyscall) then syscall_handler
          else interrupt_handler).
Proof.
  intros Hs. split; [run_stub; reflexivity |].
  each_stub Hs; (split; [| reflexivity]); run_stub; simpl name;
    (split; [intros E; simpl in E; first [discriminate E | auto]
            | intros [? | ?]; congruence]).
Qed.

(** C7. The stub of IRQ line [n] records vector [32 + n]; all sixteen
    lines have a stub, so the IRQ vectors are exactly 32-47, and every
    exception stub records its own number in 0-31.  Hence comparing the
    vector with 32 tells an IRQ frame from an exception frame. *)
Theorem irq_vectors_above_exceptions (s : stub) (hw : list Z) :
  s ∈ context_s ->
  name s <> Lsyscall ->
  (forall n, 0 <= n <= 15 -> IRQ n ∈ context_s) /\
  exists v,
    entry_int saved s hw = Some v /\
    match name s with
    | Lirq n => 0 <= n <= 15 /\ v = 32 + n /\ 32 <= v <= 47
    | Lerror id => v = id /\ 0 <= v <= 31
    | Lsyscall => False
    end /\
    (32 <=? v) = match name s with Lirq _ => true | _ => false end.
Proof.
  intros Hs Hne. split.
  - intros n Hn.
    assert (Hc : n ∈ [0; 1; 2; 3; 4; 5; 6; 7; 8; 9; 10; 11; 12; 13; 14; 15])
      by (change (n ∈ seqZ 0 16); apply elem_of_seqZ; lia).
    clear Hs. decompose_list_elem_of; subst;
      unfold context_s;
      repeat first [apply list_elem_of_here | apply list_elem_of_further].
  - each_stub Hs; try (destruct Hne; reflexivity);
      eexists; (split; [run_stub; reflexivity |]);
      simpl; repeat split; lia.
Qed.

End StubClaims.

(** ** The properties on sample inputs *)

Section Instances.
Import Kernel Handler Lock TestProcess Ctx Examples.

(** Number 1 of [holed_table] is a hole: the error exit. *)
Lemma syscall_handler_invalid_number_hole :
  syscall_handler_on holed_table (Some 1%positive) (trap_state 1)
  = Ok (-1) (trap_state 1).
Proof.
  apply (syscall_handler_invalid_number
           holed_table 1%positive (trap_state 1) (frame_with_eax 1)).
  - reflexivity.
  - right. reflexivity.
Defined.

(** Number 3 with a handler that returns 7: the frame is saved in the
    descriptor, interrupts are on, [syscalling] is false again. *)
Lemma syscall_handler_valid_number_getpid :
  syscall_handler_on
    (sys_handlers (returns 0) (returns 0) (returns 0) (returns 7)
       (returns 0))
    (Some 1%positive) (trap_state 3)
  = Ok 7
      {| procs := {[ 2%positive := process_saved_at 3 false ]};
         frames := {[ 1%positive := frame_with_eax 3 ]};
         running := Some 2%positive;
         iflag := true |}.
Proof.
  etransitivity.
  - apply (syscall_handler_valid_number
             (sys_handlers (returns 0) (returns 0) (returns 0) (returns 7)
                (returns 0))
             1%positive 2%positive (trap_state 3)
             {| procs := {[ 2%positive := process_saved_at 3 true ]};
                frames := {[ 1%positive := frame_with_eax 3 ]};
                running := Some 2%positive;
                iflag := true |}
             (frame_with_eax 3) (returns 7)
             (process_saved_at 0 false) (process_saved_at 3 true) 7).
    + reflexivity.
    + vm_compute. reflexivity.
    + reflexivity.
    + reflexivity.
    + reflexivity.
    + vm_compute. reflexivity.
    + reflexivity.
  - vm_compute. reflexivity.
Defined.

Lemma syscalling_only_during_dispatch_getpid :
  (exists s1,
      syscalling <$> procs s1 !! 2%positive = Some true /\
      iflag s1 = true /\
      syscall_handler_on
        (sys_handlers (returns 0) (returns 0) (returns 0) (returns 7)
           (returns 0))
        (Some 1%positive) (trap_state 3)
      = call_and_clear (returns 7) (Some 2%positive) (Some 1%positive) s1)
  /\
  (forall r s',
      syscall_handler_on
        (sys_handlers (returns 0) (returns 0) (returns 0) (returns 7)
           (returns 0))
        (Some 1%positive) (trap_state 3) = Ok r s' ->
      syscalling <$> procs s' !! 2%positive = Some false).
Proof.
  apply (syscalling_only_during_dispatch
           (sys_handlers (returns 0) (returns 0) (returns 0) (returns 7)
              (returns 0))
           1%positive 2%positive (trap_state 3) (frame_with_eax 3)
           (process_saved_at 0 false)); reflexivity.
Defined.

(** Without a running process, a valid number ends in a null
    dereference. *)
Lemma syscall_handler_needs_running_process_idle :
  syscall_handler_on
    (sys_handlers (returns 0) (returns 0) (returns 0) (returns 7)
       (returns 0))
    (Some 1%positive) (trap_state_idle 3)
  = Fault NullDeref.
Proof.
  apply (syscall_handler_needs_running_process
           (sys_handlers (returns 0) (returns 0) (returns 0) (returns 7)
              (returns 0))
           1%positive (trap_state_idle 3) (frame_with_eax 3) (returns 7)).
  - reflexivity.
  - vm_compute. reflexivity.
  - reflexivity.
  - reflexivity.
Defined.

Lemma sys_handlers_dense_number_7 :
  (forall w k e g wp : handler_fn,
      Handler.syscall_handler w k e g wp (Some 1%positive) (trap_state 7)
      = Ok (-1) (trap_state 7)) <->
  5 <= Int.to_size_t 7.
Proof.
  apply (sys_handlers_dense 1%positive (trap_state 7) (frame_with_eax 7)).
  reflexivity.
Defined.

(** Counterexample to C5 as stated: with interrupts masked before
    [lock], they are enabled after [unlock]. *)
Lemma lock_unlock_not_restoring :
  ~ (forall r s',
        (lock NULL;; unlock NULL) masked = Ok r s' ->
        iflag s' = iflag masked).
Proof.
  intros H. specialize (H tt (with_iflag true masked) eq_refl).
  discriminate H.
Qed.

(** Output of [print_nbr]: "-123". *)
Example print_nbr_minus_123 :
  print_nbr 3 (-123) [] = Some [45; 49; 50; 51].
Proof. reflexivity. Qed.

(** At [INT_MIN] the recursive call is on 214748364, and the call needs
    the ten activations of a ten-digit number. *)
Example recursive_calls_INT_MIN :
  recursive_calls Int.INT_MIN = [214748364].
Proof. reflexivity. Qed.

Lemma print_nbr_terminates_INT_MIN :
  Forall (fun a => Z.abs a < Z.abs Int.INT_MIN /\ Int.in_range a)
    (recursive_calls Int.INT_MIN) /\
  is_Some (print_nbr 10 Int.INT_MIN []).
Proof.
  assert (Hr : Int.in_range Int.INT_MIN)
    by (unfold Int.in_range, Int.INT_MIN, Int.INT_MAX; lia).
  destruct (print_nbr_terminates Int.INT_MIN Hr) as (H1 & _ & H3).
  split; [exact H1 | apply H3].
Defined.

(** Vector 14 (page fault): the error code is the word of the
    processor. *)
Lemma error_code_discipline_page_fault :
  name <$> context_s
  = (Lerror <$> seqZ 0 32) ++ (Lirq <$> seqZ 0 16) ++ [Lsyscall] /\
  entry_code [5; 6] (ERROR_CODE 14) [77; 1; 2] = Some 77.
Proof.
  apply (error_code_discipline [5; 6] (ERROR_CODE 14) [77; 1; 2]).
  unfold context_s.
  repeat first [apply list_elem_of_here | apply list_elem_of_further].
Defined.

(** Counterexample to C4 as stated: the vector the syscall stub records
    is 0, inside the exception range, and the stub of exception 0
    records the same. *)
Lemma syscall_vector_not_reserved :
  ~ (forall v,
        entry_int [] syscall [] = Some v ->
        ~ (0 <= v <= 31) /\ ~ (32 <= v <= 47) /\
        entry_int [] (ERROR 0) [] <> Some v).
Proof.
  intros H. destruct (H 0 eq_refl) as [H1 _]. apply H1. lia.
Qed.

Lemma syscall_vector_is_placeholder_error0 :
  entry_int [5; 6] syscall [1; 2] = Some 0 /\
  (entry_int [5; 6] (ERROR 0) [3] = entry_int [5; 6] syscall [1; 2] <->
   name (ERROR 0) = Lsyscall \/ name (ERROR 0) = Lerror 0) /\
  call_target (body (ERROR 0)) = Some interrupt_handler.
Proof.
  apply (syscall_vector_is_placeholder [5; 6] (ERROR 0) [1; 2] [3]).
  unfold context_s.
  repeat first [apply list_elem_of_here | apply list_elem_of_further].
Defined.

Lemma irq_vectors_above_exceptions_irq3 :
  (forall n, 0 <= n <= 15 -> IRQ n ∈ context_s) /\
  exists v,
    entry_int [5; 6] (IRQ 3) [1; 2] = Some v /\
    (0 <= 3 <= 15 /\ v = 32 + 3 /\ 32 <= v <= 47) /\
    (32 <=? v) = true.
Proof.
  apply (irq_vectors_above_exceptions [5; 6] (IRQ 3) [1; 2]).
  - unfold context_s.
    repeat first [apply list_elem_of_here | apply list_elem_of_further].
  - discriminate.
Defined.

End Instances.

(** * Further properties *)

(** ** The dispatcher: when it returns, and what it leaves behind *)

Section DispatchMore.
Import Kernel Handler Examples Samples.

Lemma syscall_handler_on_null tbl s :
  syscall_handler_on tbl NULL s = Fault NullDeref.
Proof. reflexivity. Qed.

Lemma syscall_handler_on_dangling tbl (registers : loc) s :
  frames s !! registers = None ->
  syscall_handler_on tbl (Some registers) s = Fault BadAccess.
Proof.
  intros E. unfold syscall_handler_on. rewrite bind_unfold.
  unfold load_regs at 1. rewrite E. reflexivity.
Qed.

Lemma syscall_handler_on_no_process tbl (registers : loc) s f h :
  frames s !! registers = Some f ->
  lookup_handler tbl (Int.to_size_t (eax f)) = Some h ->
  (running s = None ->
   syscall_handler_on tbl (Some registers) s = Fault NullDeref) /\
  (forall p, running s = Some p -> procs s !! p = None ->
             syscall_handler_on tbl (Some registers) s = Fault BadAccess).
Proof.
  intros Hf Hl.
  assert (E : syscall_handler_on tbl (Some registers) s
              = (store_regs_state (running s) f;;
                 store_syscalling (running s) true;;
                 STI;;
                 call_and_clear h (running s) (Some registers)) s).
  { unfold syscall_handler_on.
    rewrite (bind_Ok _ _ _ _ _ (load_regs_Some _ _ _ Hf)).
    rewrite Hl. rewrite bind_unfold. unfold get_running_process at 1.
    rewrite (bind_Ok _ _ _ _ _ (load_regs_Some _ _ _ Hf)).
    reflexivity. }
  rewrite E. clear E. split.
  - intros ->. reflexivity.
  - intros p -> Hd. rewrite bind_unfold.
    unfold store_regs_state, store_process. rewrite Hd. reflexivity.
Qed.

(** X1. [syscall_handler] returns to its caller in two cases only: the
    number is invalid; or it is valid, a running process with a live
    descriptor exists, the handler returns, and the descriptor is still
    there when the handler is back.  In particular the frame pointer must
    point to a frame. *)
Theorem syscall_handler_returns_iff
    (tbl : list sys_handler_t) (registers : ptr) (s : kstate) :
  (exists r s', syscall_handler_on tbl registers s = Ok r s') <->
  exists l f,
    registers = Some l /\ frames s !! l = Some f /\
    (lookup_handler tbl (Int.to_size_t (eax f)) = None \/
     exists h p d r s2,
       lookup_handler tbl (Int.to_size_t (eax f)) = Some h /\
       running s = Some p /\ procs s !! p = Some d /\
       h (Some p) (Some l) (at_call p d f s) = Ok r s2 /\
       is_Some (procs s2 !! p)).
Proof.
  split.
  - intros (r & s' & E).
    destruct registers as [l |]; [| discriminate E].
    destruct (frames s !! l) as [f |] eqn:Hf;
      [| rewrite (syscall_handler_on_dangling _ _ _ Hf) in E; discriminate].
    exists l, f. split; [reflexivity |]. split; [exact Hf |].
    destruct (lookup_handler tbl (Int.to_size_t (eax f))) as [h |] eqn:Hl;
      [right | left; reflexivity].
    destruct (syscall_handler_on_no_process _ _ _ _ _ Hf Hl) as [Hn Hb].
    destruct (running s) as [p |] eqn:Hp;
      [| rewrite Hn in E by reflexivity; discriminate].
    destruct (procs s !! p) as [d |] eqn:Hd;
      [| rewrite (Hb p) in E by (reflexivity || assumption); discriminate].
    rewrite (syscall_handler_on_good _ _ _ _ _ _ _ Hf Hl Hp Hd) in E.
    rewrite call_and_clear_outcome in E.
    destruct (h (Some p) (Some l) (at_call p d f s)) as [r2 s2 | e |] eqn:Hh;
      try discriminate.
    destruct (procs s2 !! p) as [d2 |] eqn:Hd2; try discriminate.
    exists h, p, d, r2, s2. rewrite Hd2. eauto 10.
  - intros (l & f & -> & Hf & [Hl | (h & p & d & r & s2 & Hl & Hp & Hd & Hh & [d2 Hd2])]).
    + rewrite (syscall_handler_on_bad _ _ _ _ Hf Hl). eauto.
    + rewrite (syscall_handler_on_good _ _ _ _ _ _ _ Hf Hl Hp Hd).
      rewrite call_and_clear_outcome, Hh, Hd2. eauto.
Qed.

(** X2. A handler that does not return, or faults, takes [syscall_handler]
    with it; a handler that comes back after the caller's descriptor was
    released makes the store that clears [syscalling] an invalid
    access. *)
Theorem syscall_handler_follows_handler
    (tbl : list sys_handler_t) (registers p : loc) (s : kstate)
    (f : regs_t) (h : handler_fn) (d : process_t) :
  frames s !! registers = Some f ->
  lookup_handler tbl (Int.to_size_t (eax f)) = Some h ->
  running s = Some p ->
  procs s !! p = Some d ->
  (h (Some p) (Some registers) (at_call p d f s) = NoReturn ->
   syscall_handler_on tbl (Some registers) s = NoReturn) /\
  (forall e,
      h (Some p) (Some registers) (at_call p d f s) = Fault e ->
      syscall_handler_on tbl (Some registers) s = Fault e) /\
  (forall r s2,
      h (Some p) (Some registers) (at_call p d f s) = Ok r s2 ->
      procs s2 !! p = None ->
      syscall_handler_on tbl (Some registers) s = Fault BadAccess).
Proof.
  intros Hf Hl Hp Hd.
  rewrite (syscall_handler_on_good _ _ _ _ _ _ _ Hf Hl Hp Hd).
  rewrite call_and_clear_outcome.
  split; [| split].
  - intros ->. reflexivity.
  - intros e ->. reflexivity.
  - intros r s2 -> ->. reflexivity.
Qed.

Lemma syscall_handler_follows_handler_exit :
  syscall_handler_on
    (sys_handlers (returns 0) (returns 0) never_returns (returns 7)
       (returns 0))
    (Some 1%positive) (trap_state 2)
  = NoReturn.
Proof.
  apply (syscall_handler_follows_handler
           (sys_handlers (returns 0) (returns 0) never_returns (returns 7)
              (returns 0))
           1%positive 2%positive (trap_state 2) (frame_with_eax 2)
           never_returns (process_saved_at 0 false));
    reflexivity.
Defined.

(** X3. [syscalling] is written, not saved and restored: when
    [syscall_handler] returns, the flag of the running process is false
    after a valid number, whatever it was on entry, and is what it was on
    entry after an invalid one. *)
Theorem syscalling_on_return
    (tbl : list sys_handler_t) (registers p : loc) (s s' : kstate)
    (f : regs_t) (d : process_t) (r : sys_ret_t) :
  frames s !! registers = Some f ->
  running s = Some p ->
  procs s !! p = Some d ->
  syscall_handler_on tbl (Some registers) s = Ok r s' ->
  syscalling <$> procs s' !! p
  = Some (match lookup_handler tbl (Int.to_size_t (eax f)) with
          | None => syscalling d
          | Some _ => false
          end).
Proof.
  intros Hf Hp Hd.
  destruct (lookup_handler tbl (Int.to_size_t (eax f))) as [h |] eqn:Hl.
  - rewrite (syscall_handler_on_good _ _ _ _ _ _ _ Hf Hl Hp Hd).
    rewrite call_and_clear_outcome.
    destruct (h (Some p) (Some registers) (at_call p d f s))
      as [r2 s2 | e |]; try discriminate.
    destruct (procs s2 !! p) as [d2 |]; try discriminate.
    intros [= _ <-]. simpl. rewrite lookup_insert_eq. reflexivity.
  - rewrite (syscall_handler_on_bad _ _ _ _ Hf Hl).
    intros [= _ <-]. rewrite Hd. reflexivity.
Qed.

Lemma syscalling_on_return_nested :
  syscalling <$>
    procs
      {| procs := {[ 2%positive := process_saved_at 3 false ]};
         frames := {[ 1%positive := frame_with_eax 3 ]};
         running := Some 2%positive;
         iflag := true |} !! 2%positive
  = Some false.
Proof.
  apply (syscalling_on_return
           (sys_handlers (returns 0) (returns 0) (returns 0) (returns 7)
              (returns 0))
           1%positive 2%positive in_syscall_state _
           (frame_with_eax 3) (process_saved_at 0 true) 7).
  - reflexivity.
  - reflexivity.
  - reflexivity.
  - vm_compute. reflexivity.
Defined.

(** X4. The number is compared as an unsigned word: a frame whose [eax] is
    negative as a 32-bit integer is refused by every table of at most
    2^31 entries, without a test of its own. *)
Theorem syscall_handler_negative_number
    (tbl : list sys_handler_t) (registers : loc) (s : kstate) (f : regs_t) :
  frames s !! registers = Some f ->
  SYSCALLS_COUNT tbl <= 2 ^ 31 ->
  - 2 ^ 31 <= eax f < 0 ->
  syscall_handler_on tbl (Some registers) s = Ok (-1) s.
Proof.
  intros Hf Hlen Hneg.
  apply (syscall_handler_on_bad _ _ _ _ Hf).
  apply lookup_handler_None; [apply to_size_t_nonneg |]. left.
  unfold Int.to_size_t.
  rewrite <- (Z.mod_add (eax f) 1 (2 ^ 32)) by lia.
  rewrite Z.mod_small by lia. lia.
Qed.

Lemma syscall_handler_negative_number_minus_1 :
  syscall_handler_on
    (sys_handlers (returns 0) (returns 0) (returns 0) (returns 7)
       (returns 0))
    (Some 1%positive) (trap_state (-1))
  = Ok (-1) (trap_state (-1)).
Proof.
  apply (syscall_handler_negative_number _ 1%positive (trap_state (-1))
           (frame_with_eax (-1))).
  - reflexivity.
  - vm_compute. discriminate.
  - simpl. lia.
Defined.

Lemma lookup_handler_app (tbl ext : list sys_handler_t) (id : Z) :
  0 <= id < SYSCALLS_COUNT tbl ->
  lookup_handler (tbl ++ ext) id = lookup_handler tbl id.
Proof.
  unfold lookup_handler, SYSCALLS_COUNT. intros Hid.
  rewrite length_app, Nat2Z.inj_add.
  destruct (Z.leb_spec (Z.of_nat (length tbl) + Z.of_nat (length ext)) id);
    [lia |].
  destruct (Z.leb_spec (Z.of_nat (length tbl)) id); [lia |].
  rewrite lookup_app_l; [reflexivity |].
  apply Nat2Z.inj_lt. rewrite Z2Nat.id by lia. assumption.
Qed.

(** X5. Numbers keep their meaning when the table grows at its end: for a
    number within the old table, [syscall_handler] over the longer table
    does exactly what it does over the old one. *)
Theorem syscall_numbers_stable
    (tbl ext : list sys_handler_t) (registers : loc) (s : kstate)
    (f : regs_t) :
  frames s !! registers = Some f ->
  Int.to_size_t (eax f) < SYSCALLS_COUNT tbl ->
  syscall_handler_on (tbl ++ ext) (Some registers) s
  = syscall_handler_on tbl (Some registers) s.
Proof.
  intros Hf Hid. unfold syscall_handler_on.
  rewrite !(bind_Ok _ _ _ _ _ (load_regs_Some _ _ _ Hf)).
  rewrite lookup_handler_app; [reflexivity |].
  split; [apply to_size_t_nonneg | assumption].
Qed.

Lemma syscall_numbers_stable_hole :
  syscall_handler_on (holed_table ++ [Some (returns 9)]) (Some 1%positive)
    (trap_state 1)
  = syscall_handler_on holed_table (Some 1%positive) (trap_state 1).
Proof.
  apply (syscall_numbers_stable holed_table [Some (returns 9)] 1%positive
           (trap_state 1) (frame_with_eax 1)).
  - reflexivity.
  - vm_compute. reflexivity.
Defined.

End DispatchMore.

(** ** Sequences of [lock] and [unlock] *)

Section LockMore.
Import Kernel Lock LockSeq.

Lemma run_ops_app (os1 os2 : list lock_op) (s : kstate) :
  run_ops (os1 ++ os2) s
  = match run_ops os1 s with
    | Ok _ s' => run_ops os2 s'
    | Fault e => Fault e
    | NoReturn => NoReturn
    end.
Proof.
  revert s. induction os1 as [| o os1 IH]; intros s; [reflexivity |].
  simpl. rewrite !bind_unfold.
  destruct (run_op o s) as [[] s' | e |]; [apply IH | reflexivity ..].
Qed.

(** X6. The locks do not count and do not look at their argument: any
    sequence of [lock] and [unlock] calls, on any pointers (NULL
    included), returns, changes nothing but the interrupt flag, and
    leaves that flag as its last call alone would: masked after a [lock],
    enabled after an [unlock], however many locks are still held. *)
Theorem lock_sequence_last_wins (os : list lock_op) (s : kstate) :
  run_ops os s
  = Ok tt match last os with
          | None => s
          | Some (Acquire _) => with_iflag false s
          | Some (Release _) => with_iflag true s
          end.
Proof.
  induction os as [| o os IH] using rev_ind; [reflexivity |].
  rewrite run_ops_app, IH, last_snoc.
  destruct o; simpl; rewrite bind_unfold; simpl;
    destruct (last os) as [[] |]; reflexivity.
Qed.

(** A critical section nested in another ends both: what runs after the
    inner [unlock], still under the outer lock, runs with interrupts
    enabled. *)
Corollary nested_unlock_ends_outer_section
    {A : Type} (outer inner : ptr) (rest : K A) (s : kstate) :
  (lock outer;; lock inner;; unlock inner;; rest) s
  = rest (with_iflag true s).
Proof. reflexivity. Qed.

End LockMore.

(** ** What [print_nbr] writes *)

Section PrintNbrOutput.
Import TestProcess Decimal.

Lemma write_1 (c : Z) (out : list Z) : write 1 [c] 1 out = out ++ [c].
Proof. reflexivity. Qed.

Lemma print_nbr_app (fuel : nat) (nbr : Z) (out : list Z) :
  print_nbr fuel nbr out = (out ++.) <$> print_nbr fuel nbr [].
Proof.
  revert nbr out. induction fuel as [| fuel IH]; intros nbr out;
    [reflexivity |].
  rewrite !print_nbr_calls, !write_1.
  set (last := if 0 <=? nbr then _ else _). clearbody last.
  assert (Hfold : forall (calls : list Z) (pre : list Z),
             foldl (fun acc a => acc ≫= print_nbr fuel a)
               (Some (out ++ pre)) calls
             = (out ++.) <$>
               foldl (fun acc a => acc ≫= print_nbr fuel a)
                 (Some pre) calls).
  { intros calls. induction calls as [| a calls IHc]; intros pre;
      [reflexivity |].
    simpl. rewrite (IH a (out ++ pre)), (IH a pre).
    destruct (print_nbr fuel a []) as [o |]; simpl.
    - rewrite <- app_assoc. apply IHc.
    - clear. induction calls; [reflexivity | assumption]. }
  destruct (nbr <? 0).
  - change ([] ++ [45]) with [45]. rewrite (Hfold _ [45]).
    destruct (foldl _ (Some [45]) _); simpl; [| reflexivity].
    rewrite !write_1, app_assoc. reflexivity.
  - replace out with (out ++ []) at 1 by apply app_nil_r.
    rewrite (Hfold _ []).
    destruct (foldl _ (Some []) _); simpl; [| reflexivity].
    rewrite !write_1, app_assoc. reflexivity.
Qed.

(** X7. [print_nbr] only appends: what was written before stays in place,
    and the text added is the same whatever was written before. *)
Theorem print_nbr_appends (fuel : nat) (nbr : Z) (out r : list Z) :
  print_nbr fuel nbr out = Some r ->
  exists cs,
    r = out ++ cs /\
    forall out', print_nbr fuel nbr out' = Some (out' ++ cs).
Proof.
  rewrite print_nbr_app.
  destruct (print_nbr fuel nbr []) as [cs |] eqn:E; [| discriminate].
  intros [= <-]. exists cs. split; [reflexivity |].
  intros out'. rewrite print_nbr_app, E. reflexivity.
Qed.

(** More fuel does not change a result. *)
Lemma print_nbr_fuel_S (fuel : nat) :
  forall nbr out r,
    print_nbr fuel nbr out = Some r -> print_nbr (S fuel) nbr out = Some r.
Proof.
  induction fuel as [| fuel IH]; intros nbr out r; [discriminate |].
  rewrite (print_nbr_calls (S fuel)), (print_nbr_calls fuel).
  set (last := if 0 <=? nbr then _ else _). clearbody last.
  set (pre := if nbr <? 0 then _ else _). clearbody pre.
  assert (Hfold : forall (calls : list Z) (acc : option (list Z)) o,
             foldl (fun acc a => acc ≫= print_nbr fuel a) acc calls = Some o ->
             foldl (fun acc a => acc ≫= print_nbr (S fuel) a) acc calls
             = Some o).
  { intros calls. induction calls as [| a calls IHc]; intros acc o;
      [trivial |].
    simpl. intros H. rewrite <- (IHc _ _ H). f_equal.
    destruct acc as [x |]; [| reflexivity]. simpl.
    destruct (print_nbr fuel a x) as [y |] eqn:E.
    - apply (IH _ _ _ E).
    - exfalso. simpl in H. rewrite E in H. clear -H.
      induction calls; [discriminate | auto]. }
  destruct (foldl _ (Some pre) (recursive_calls nbr)) as [o |] eqn:E;
    [| discriminate].
  rewrite (Hfold _ _ _ E). trivial.
Qed.

Lemma print_nbr_fuel_le (fuel fuel' : nat) nbr out r :
  (fuel <= fuel')%nat ->
  print_nbr fuel nbr out = Some r -> print_nbr fuel' nbr out = Some r.
Proof.
  induction 1 as [| fuel' _ IH]; [trivial |].
  intros H. apply print_nbr_fuel_S, IH, H.
Qed.

Lemma decimal_value_snoc (ds : list Z) (c : Z) :
  decimal_value (ds ++ [c]) = 10 * decimal_value ds + (c - 48).
Proof. unfold decimal_value. rewrite foldl_app. reflexivity. Qed.

Lemma last_digit (n : Z) :
  0 <= n ->
  Int.to_char (48 + n `rem` 10) = 48 + n `mod` 10 /\
  is_digit (48 + n `mod` 10).
Proof.
  intros Hn. rewrite Z.rem_mod_nonneg by lia.
  pose proof (Z.mod_pos_bound n 10 ltac:(lia)).
  unfold Int.to_char, is_digit. rewrite Z.mod_small; lia.
Qed.

(** A number from 0 to [INT_MAX]: its digits, without leading zero. *)
Lemma print_nbr_digits (d : nat) :
  forall (n : Z) (out : list Z),
    0 <= n <= Int.INT_MAX -> (0 < d)%nat -> n < 10 ^ Z.of_nat d ->
    exists ds,
      print_nbr d n out = Some (out ++ ds) /\
      Forall is_digit ds /\ decimal_value ds = n /\
      (0 < length ds <= d)%nat /\ (head ds = Some 48 -> n = 0).
Proof.
  induction d as [| d IH]; intros n out Hn Hd Hlt; [lia |].
  assert (Hr : Int.in_range n).
  { unfold Int.in_range, Int.INT_MIN, Int.INT_MAX in *. lia. }
  rewrite print_nbr_calls, recursive_calls_spec by assumption.
  destruct (Z.ltb_spec n 0) as [? | _]; [lia |].
  destruct (Z.leb_spec 0 n) as [_ | ?]; [| lia].
  destruct (last_digit n) as [-> Hdig]; [lia |].
  destruct (Z.leb_spec n (-10)) as [? | _]; [lia |].
  destruct (Z.leb_spec 10 n) as [H10 | H10].
  - destruct (quot10_lt n d) as (Hq & Hqlt & Hpos); [lia | lia |].
    destruct (IH (n `quot` 10) out) as (ds & E & Hds & Hval & Hlen & Hhd);
      [unfold Int.INT_MAX in *; lia | assumption | lia |].
    exists (ds ++ [48 + n `mod` 10]). simpl. rewrite E. simpl.
    rewrite write_1, <- app_assoc.
    split; [reflexivity |]. split; [| split; [| split]].
    + apply Forall_app. split; [assumption | constructor; [assumption | constructor]].
    + rewrite decimal_value_snoc, Hval.
      rewrite Z.quot_div_nonneg by lia.
      pose proof (Z.div_mod n 10 ltac:(lia)). lia.
    + rewrite length_app. simpl. lia.
    + destruct ds as [| c ds]; [simpl in Hlen; lia |].
      simpl. intros Hc. specialize (Hhd Hc).
      rewrite Z.quot_div_nonneg in Hhd by lia.
      pose proof (Z.div_le_lower_bound n 10 1 ltac:(lia) ltac:(lia)). lia.
  - exists [48 + n `mod` 10]. simpl.
    split; [reflexivity |]. split; [| split; [| split]].
    + constructor; [assumption | constructor].
    + unfold decimal_value. simpl. rewrite Z.mod_small by lia. lia.
    + simpl. lia.
    + simpl. intros [= Hc]. rewrite Z.mod_small in Hc by lia. lia.
Qed.

(** A negative number other than [INT_MIN]: a minus sign, then its
    opposite. *)
Lemma print_nbr_negative (fuel : nat) (n : Z) (out : list Z) :
  Int.in_range n -> n < 0 -> n <> Int.INT_MIN ->
  print_nbr (S fuel) n out = print_nbr (S fuel) (- n) (out ++ [45]).
Proof.
  intros Hr Hneg Hmin.
  assert (Hr' : Int.in_range (- n)).
  { unfold Int.in_range, Int.INT_MIN, Int.INT_MAX in *. lia. }
  rewrite !print_nbr_calls, !recursive_calls_spec by assumption.
  rewrite neg_opp by assumption.
  rewrite write_1.
  destruct (Z.ltb_spec n 0) as [_ | ?]; [| lia].
  destruct (Z.ltb_spec (- n) 0) as [? | _]; [lia |].
  destruct (Z.leb_spec 0 n) as [? | _]; [lia |].
  destruct (Z.leb_spec 0 (- n)) as [_ | ?]; [| lia].
  destruct (Z.leb_spec 10 n) as [? | _]; [lia |].
  destruct (Z.leb_spec n (-10)) as [H10 | H10].
  - destruct (Z.leb_spec 10 (- n)) as [_ | ?]; [| lia]. reflexivity.
  - destruct (Z.leb_spec 10 (- n)) as [? | _]; [lia |].
    destruct (Z.leb_spec (- n) (-10)) as [? | _]; [lia |]. reflexivity.
Qed.

(** X8. The text of a number, as [print_nbr] is meant to write it: the
    digits of its magnitude without leading zero, after a minus sign if
    it is negative. *)
Theorem print_nbr_decimal (fuel : nat) (nbr : Z) (out : list Z) :
  Int.in_range nbr -> nbr <> Int.INT_MIN -> (10 <= fuel)%nat ->
  exists ds,
    print_nbr fuel nbr out
    = Some (out ++ (if nbr <? 0 then [45] else []) ++ ds) /\
    Forall is_digit ds /\
    decimal_value ds = Z.abs nbr /\
    (0 < length ds <= 10)%nat /\
    (head ds = Some 48 -> nbr = 0).
Proof.
  intros Hr Hmin Hfuel.
  assert (Hr' : Int.INT_MIN <= nbr <= Int.INT_MAX) by exact Hr.
  unfold Int.INT_MIN, Int.INT_MAX in Hr'.
  destruct (Z.ltb_spec nbr 0) as [Hneg | Hpos].
  - destruct (print_nbr_digits 10 (- nbr) (out ++ [45]))
      as (ds & E & Hds & Hval & Hlen & Hhd);
      [unfold Int.INT_MAX, Int.INT_MIN in *; lia | lia
      | change (Z.of_nat 10) with 10; lia |].
    exists ds. split; [| split; [| split; [| split]]]; try assumption.
    + apply (print_nbr_fuel_le 10); [assumption |].
      rewrite print_nbr_negative by assumption.
      rewrite E, <- app_assoc. reflexivity.
    + lia.
    + intros Hc. specialize (Hhd Hc). lia.
  - destruct (print_nbr_digits 10 nbr out)
      as (ds & E & Hds & Hval & Hlen & Hhd);
      [unfold Int.INT_MAX; lia | lia | change (Z.of_nat 10) with 10; lia |].
    exists ds. split; [| split; [| split; [| split]]]; try assumption.
    + apply (print_nbr_fuel_le 10); assumption.
    + lia.
Qed.

(** X9. Reading back what [print_nbr] wrote gives the number printed,
    for every [int] other than [INT_MIN] (whose opposite no [int]
    holds); the text has at most 11 characters. *)
Theorem print_nbr_round_trip (fuel : nat) (nbr : Z) (out : list Z) :
  Int.in_range nbr -> nbr <> Int.INT_MIN -> (10 <= fuel)%nat ->
  exists cs,
    print_nbr fuel nbr out = Some (out ++ cs) /\
    (length cs <= 11)%nat /\
    parse_int cs = nbr.
Proof.
  intros Hr Hmin Hfuel.
  assert (Hr' : Int.INT_MIN <= nbr <= Int.INT_MAX) by exact Hr.
  unfold Int.INT_MIN, Int.INT_MAX in Hr'.
  destruct (Z.ltb_spec nbr 0) as [Hneg | Hpos].
  - destruct (print_nbr_digits 10 (- nbr) (out ++ [45]))
      as (ds & E & Hds & Hval & Hlen & Hhd);
      [unfold Int.INT_MAX, Int.INT_MIN in *; lia | lia
      | change (Z.of_nat 10) with 10; lia |].
    exists (45 :: ds). split; [| split].
    + apply (print_nbr_fuel_le 10); [assumption |].
      rewrite print_nbr_negative by assumption.
      rewrite E, <- app_assoc. reflexivity.
    + simpl. lia.
    + simpl. rewrite Hval. lia.
  - destruct (print_nbr_digits 10 nbr out)
      as (ds & E & Hds & Hval & Hlen & Hhd);
      [unfold Int.INT_MAX; lia | lia | change (Z.of_nat 10) with 10; lia |].
    exists ds. split; [| split].
    + apply (print_nbr_fuel_le 10); assumption.
    + lia.
    + destruct ds as [| c ds]; [simpl in Hlen; lia |].
      apply Forall_cons_1 in Hds as [Hc _]. unfold is_digit in Hc.
      unfold parse_int.
      replace (decimal_value (c :: ds)) with nbr by lia.
      destruct c as [| c | c]; try lia; try reflexivity.
      do 6 (destruct c as [c | c |]; try reflexivity; try lia).
Qed.

Lemma print_nbr_too_shallow (d : nat) :
  forall (nbr : Z) (out : list Z),
    Int.in_range nbr -> nbr <> Int.INT_MIN ->
    10 ^ Z.of_nat d <= Z.abs nbr ->
    print_nbr d nbr out = None.
Proof.
  induction d as [| d IH]; intros nbr out Hr Hmin Hge; [reflexivity |].
  rewrite Nat2Z.inj_succ, Z.pow_succ_r in Hge by lia.
  assert (Hp : 0 < 10 ^ Z.of_nat d) by (apply Z.pow_pos_nonneg; lia).
  assert (Hr' : Int.INT_MIN <= nbr <= Int.INT_MAX) by exact Hr.
  unfold Int.INT_MIN, Int.INT_MAX in Hr'.
  rewrite print_nbr_calls, recursive_calls_spec by assumption.
  destruct (Z.leb_spec 10 nbr) as [H1 | H1].
  - simpl. rewrite IH; [reflexivity | | |].
    + unfold Int.in_range, Int.INT_MIN, Int.INT_MAX.
      rewrite Z.quot_div_nonneg by lia.
      pose proof (Z.div_pos nbr 10). pose proof (Z.div_lt nbr 10). lia.
    + unfold Int.INT_MIN. rewrite Z.quot_div_nonneg by lia.
      pose proof (Z.div_pos nbr 10). lia.
    + rewrite Z.quot_div_nonneg by lia.
      rewrite Z.abs_eq by (apply Z.div_pos; lia).
      apply Z.div_le_lower_bound; lia.
  - destruct (Z.leb_spec nbr (-10)) as [H3 | H3]; [| lia].
    simpl. rewrite IH; [reflexivity | | |].
    + unfold Int.in_range, Int.INT_MIN, Int.INT_MAX.
      rewrite Z.quot_div_nonneg by lia.
      pose proof (Z.div_pos (- nbr) 10). pose proof (Z.div_lt (- nbr) 10).
      lia.
    + unfold Int.INT_MIN. rewrite Z.quot_div_nonneg by lia.
      pose proof (Z.div_pos (- nbr) 10). lia.
    + rewrite Z.quot_div_nonneg by lia.
      rewrite Z.abs_eq by (apply Z.div_pos; lia).
      apply Z.div_le_lower_bound; lia.
Qed.

(** X10. The nesting of [print_nbr] is as deep as the number has digits, no
    less: a call on a number other than [INT_MIN] completes within [d]
    nested activations exactly when the number is below [10 ^ d] in
    magnitude. *)
Theorem print_nbr_depth (d : nat) (nbr : Z) (out : list Z) :
  Int.in_range nbr -> nbr <> Int.INT_MIN -> (0 < d)%nat ->
  is_Some (print_nbr d nbr out) <-> Z.abs nbr < 10 ^ Z.of_nat d.
Proof.
  intros Hr Hmin Hd. split.
  - intros [o Ho].
    destruct (Z.lt_ge_cases (Z.abs nbr) (10 ^ Z.of_nat d)) as [? | Hge];
      [assumption |].
    rewrite (print_nbr_too_shallow d nbr out Hr Hmin Hge) in Ho.
    discriminate.
  - intros Hlt. apply print_nbr_returns; assumption.
Qed.

End PrintNbrOutput.

(** ** [test_process] *)

Section TestProcessMore.
Import TestProcess TestMain.

(** X11. In the process that [fork] does not answer 0 (the parent, and also
    the caller of a failed [fork], which is not told apart), the text
    written is the three literals without their NUL, with the text of
    [print_nbr] for the result of [waitpid] and for the status after "ret: "
    and "\nstatus: "; the calls made are [fork] and
    [waitpid(-1, &wstatus, 0)] with [wstatus] holding 42; and the process
    ends in the endless loop. *)
Theorem test_process_parent (fuel : nat) (k : answers) (s : ustate) :
  fork_ret k <> 0 ->
  Int.in_range (waitpid_ret k) -> Int.in_range (waitpid_wstatus k) ->
  (10 <= fuel)%nat ->
  exists cr cs,
    print_nbr fuel (waitpid_ret k) [] = Some cr /\
    print_nbr fuel (waitpid_wstatus k) [] = Some cs /\
    test_process fuel k s
    = Some ({| out := out s ++ removelast str_hello
                 ++ removelast str_waiting ++ removelast str_ret ++ cr
                 ++ removelast str_status ++ cs;
               calls := calls s ++ [ev_fork; ev_waitpid (-1) 42 0] |},
            Spinning).
Proof.
  intros Hfork Hr Hs Hfuel.
  destruct (print_nbr_returns 10 (waitpid_ret k) [] Hr ltac:(lia)) as [cr Hcr].
  { unfold Int.in_range, Int.INT_MIN, Int.INT_MAX in Hr.
    change (Z.of_nat 10) with 10. lia. }
  destruct (print_nbr_returns 10 (waitpid_wstatus k) [] Hs ltac:(lia))
    as [cs Hcs].
  { unfold Int.in_range, Int.INT_MIN, Int.INT_MAX in Hs.
    change (Z.of_nat 10) with 10. lia. }
  apply (print_nbr_fuel_le 10 fuel) in Hcr; [| assumption].
  apply (print_nbr_fuel_le 10 fuel) in Hcs; [| assumption].
  exists cr, cs. split; [assumption |]. split; [assumption |].
  unfold test_process.
  destruct (Z.eqb_spec (fork_ret k) 0) as [? | _]; [contradiction |].
  cbn [put log out calls].
  rewrite (print_nbr_app fuel (waitpid_ret k)), Hcr. cbn [fmap option_fmap option_map mbind option_bind].
  cbn [put log out calls].
  rewrite (print_nbr_app fuel (waitpid_wstatus k)), Hcs.
  cbn [fmap option_fmap option_map mbind option_bind].
  do 2 f_equal. unfold write. simpl.
  f_equal; [| rewrite <- app_assoc; reflexivity].
  rewrite <- !app_assoc. reflexivity.
Qed.

End TestProcessMore.

(** ** The stubs from entry to [iretd] *)

Section StubRun.
Import Ctx CtxRun.

Variable nregs : nat.
Variable zero_ebp : list Z -> list Z.
Variable load_ebp : list Z -> Z -> Z.
Variable set_ax : Z -> list Z -> list Z.
Variable handle : symbol -> cpu -> cpu.

Local Abbreviation step := (step nregs zero_ebp load_ebp handle).
Local Abbreviation run := (run nregs zero_ebp load_ebp handle).
Local Abbreviation run_to_call := (run_to_call nregs zero_ebp load_ebp handle).

Lemma step_add_esp (n : Z) (c : cpu) (popped rest : list Z) :
  stack c = popped ++ rest ->
  n = 4 * Z.of_nat (length popped) ->
  step (add_esp n) c
  = Some {| stack := rest; regs := regs c; EBP := EBP c; DF := DF c;
            ES := ES c; DS := DS c |}.
Proof.
  intros Hst ->. unfold CtxRun.step.
  replace ((4 * Z.of_nat (length popped)) `div` 4)
    with (Z.of_nat (length popped))
    by (rewrite Z.mul_comm, Z.div_mul; lia).
  rewrite Nat2Z.id.
  replace ((4 * Z.of_nat (length popped)) `mod` 4) with 0
    by (rewrite Z.mul_comm, Z.mod_mul; lia).
  rewrite Hst, length_app, drop_app_length.
  destruct (Z.leb_spec 0 (4 * Z.of_nat (length popped))); [| lia].
  destruct (Z.leb_spec (Z.of_nat (length popped))
              (Z.of_nat (length popped + length rest))); [| lia].
  reflexivity.
Qed.

Lemma step_LOAD_REGS (c : cpu) (rs rest : list Z) :
  stack c = rs ++ rest ->
  length rs = nregs ->
  step LOAD_REGS c
  = Some {| stack := rest; regs := rs;
            EBP := load_ebp rs (EBP c);
            DF := DF c; ES := ES c; DS := DS c |}.
Proof.
  intros Hst <-. unfold CtxRun.step.
  rewrite Hst, length_app, drop_app_length, take_app_length.
  destruct (Nat.leb_spec (length rs) (length rs + length rest)); [| lia].
  reflexivity.
Qed.

(** The end of every stub and of [init_ctx]: restore the registers, drop
    the vector and the error code. *)
Lemma run_restore (c : cpu) (rs rest : list Z) (v e : Z) :
  stack c = rs ++ v :: e :: rest ->
  length rs = nregs ->
  run [LOAD_REGS; add_esp 8; iretd] c
  = Some {| stack := rest; regs := rs;
            EBP := load_ebp rs (EBP c);
            DF := DF c; ES := ES c; DS := DS c |}.
Proof.
  intros Hst Hlen.
  change (run [LOAD_REGS; add_esp 8; iretd] c)
    with (step LOAD_REGS c ≫= run [add_esp 8; iretd]).
  rewrite (step_LOAD_REGS c rs (v :: e :: rest) Hst Hlen).
  cbn [mbind option_bind].
  match goal with
  | |- run [add_esp 8; iretd] ?c' = _ =>
    change (run [add_esp 8; iretd] c')
      with (step (add_esp 8) c' ≫= run [iretd]);
    rewrite (step_add_esp 8 c' [v; e] rest eq_refl eq_refl)
  end.
  reflexivity.
Qed.

(** What follows the [call] in every stub. *)
Lemma run_after_call (c : cpu) (rs rest : list Z) (a v e : Z) :
  stack c = a :: rs ++ v :: e :: rest ->
  length rs = nregs ->
  run [add_esp 4; LOAD_REGS; add_esp 8; iretd] c
  = Some {| stack := rest; regs := rs;
            EBP := load_ebp rs (EBP c);
            DF := DF c; ES := ES c; DS := DS c |}.
Proof.
  intros Hst Hlen.
  change (run [add_esp 4; LOAD_REGS; add_esp 8; iretd] c)
    with (step (add_esp 4) c ≫= run [LOAD_REGS; add_esp 8; iretd]).
  rewrite (step_add_esp 4 c [a] (rs ++ v :: e :: rest) Hst eq_refl).
  cbn [mbind option_bind].
  apply (run_restore
           {| stack := rs ++ v :: e :: rest; regs := regs c;
              EBP := EBP c;
              DF := DF c;
              ES := ES c; DS := DS c |} rs rest v e);
    [reflexivity | assumption].
Qed.

Ltac each_stub s H :=
  unfold context_s in H; decompose_list_elem_of; subst s.

(** X13. Every stub hands its C function the frame of [build_frame], by its
    address on top of the stack, with the direction flag cleared and
    [ebp] zeroed; the function is [syscall_handler] for the syscall stub
    and [interrupt_handler] for the others. *)
Theorem stub_enters_handler (s : stub) (c : cpu) :
  s ∈ context_s ->
  exists frame,
    build_frame (regs c) (body s) (stack c) = Some frame /\
    run_to_call (body s) c
    = Some (if decide (name s = Lsyscall) then syscall_handler
            else interrupt_handler,
            {| stack := address_of frame :: frame;
               regs := zero_ebp (regs c); EBP := 0; DF := false;
               ES := ES c; DS := DS c |}).
Proof.
  intros Hs. each_stub s Hs; eexists; (split; [reflexivity |]); reflexivity.
Qed.

(** From the frame as the C function left it to [iretd]: the registers
    are loaded with the saved-register words of that frame, and the
    argument, the vector and the error code are gone from the stack. *)
Lemma stub_resumes_aux (s : stub) (c ce : cpu) (f : symbol)
    (rs rest : list Z) (a v e : Z) :
  s ∈ context_s ->
  run_to_call (body s) c = Some (f, ce) ->
  stack (handle f ce) = a :: rs ++ v :: e :: rest ->
  length rs = nregs ->
  run (body s) c
  = Some {| stack := rest; regs := rs;
            EBP := load_ebp rs (EBP (handle f ce));
            DF := DF (handle f ce);
            ES := ES (handle f ce); DS := DS (handle f ce) |}.
Proof.
  intros Hs Hcall Hst Hlen.
  each_stub s Hs; simpl in Hcall; injection Hcall as <- <-;
    apply (run_after_call _ rs rest a v e Hst Hlen).
Qed.

(** X14. The stubs resume from the frame, not from the registers the C
    function returns with: whatever that function wrote in the frame is
    what the interrupted code gets back, and the stack is left without the
    argument, the vector and the error code, for every stub. *)
Theorem stub_resumes_from_frame (s : stub) (c ce : cpu) (f : symbol)
    (rs rest : list Z) (a v e : Z) :
  s ∈ context_s ->
  run_to_call (body s) c = Some (f, ce) ->
  stack (handle f ce) = a :: rs ++ v :: e :: rest ->
  length rs = nregs ->
  exists c',
    run (body s) c = Some c' /\ regs c' = rs /\ stack c' = rest.
Proof.
  intros Hs Hcall Hst Hlen. eexists.
  split; [apply (stub_resumes_aux s c ce f rs rest a v e); eassumption |].
  split; reflexivity.
Qed.

(** X15. A trap is transparent: if the C function leaves the stack as it
    found it, the stub reaches [iretd] with the saved registers back in
    place and the stack as the processor left it, less the error code
    for the vectors that have one.  Such a vector needs that word on the
    stack. *)
Theorem stub_is_transparent (s : stub) (c : cpu) :
  s ∈ context_s ->
  length (regs c) = nregs ->
  (forall f ce, stack (handle f ce) = stack ce) ->
  (match name s with
   | Lerror id => bool_decide (id ∈ hw_error_code_vectors) = true
   | _ => False
   end -> stack c <> []) ->
  exists c',
    run (body s) c = Some c' /\
    regs c' = regs c /\
    stack c'
    = match name s with
      | Lerror id =>
        if bool_decide (id ∈ hw_error_code_vectors) then tail (stack c)
        else stack c
      | _ => stack c
      end.
Proof.
  intros Hs Hlen Hh Hne.
  destruct (stub_enters_handler s c Hs) as (frame & Hframe & Hcall).
  set (f := if decide (name s = Lsyscall) then syscall_handler
            else interrupt_handler) in *.
  set (ce := {| stack := address_of frame :: frame;
                regs := zero_ebp (regs c); EBP := 0; DF := false;
                ES := ES c; DS := DS c |}) in *.
  assert (Hshape : exists v e,
             frame
             = regs c ++ v :: e ::
               match name s with
               | Lerror id =>
                 if bool_decide (id ∈ hw_error_code_vectors)
                 then tail (stack c) else stack c
               | _ => stack c
               end).
  { clear Hcall. clearbody f. clear ce f.
    each_stub s Hs; simpl in Hframe; injection Hframe as <-;
      try (eexists _, _; reflexivity);
      (destruct (stack c) as [| e0 st];
       [exfalso; apply Hne; reflexivity | eexists _, _; reflexivity]). }
  destruct Hshape as (v & e & Hshape).
  set (rest := match name s with
               | Lerror id =>
                 if bool_decide (id ∈ hw_error_code_vectors)
                 then tail (stack c) else stack c
               | _ => stack c
               end) in *.
  eexists. split.
  - apply (stub_resumes_aux s c ce f (regs c) rest (address_of frame) v e Hs
             Hcall); [| assumption].
    rewrite Hh. unfold ce. simpl. rewrite Hshape at 2. reflexivity.
  - split; reflexivity.
Qed.

(** X16. [init_ctx] takes up any frame a stub has built: the registers that
    were saved are loaded, the stack is the one the trap came on (less
    the error code, for the vectors that have one), and the data segments
    are the user ones (selector 0x23, privilege level 3). *)
Theorem init_ctx_resumes_frame (s : stub) (c0 c : cpu) (frame : list Z) :
  s ∈ context_s ->
  length (regs c0) = nregs ->
  (match name s with
   | Lerror id => bool_decide (id ∈ hw_error_code_vectors) = true
   | _ => False
   end -> stack c0 <> []) ->
  build_frame (regs c0) (body s) (stack c0) = Some frame ->
  exists c',
    init_ctx nregs zero_ebp load_ebp set_ax handle frame c = Some c' /\
    regs c' = regs c0 /\
    stack c'
    = match name s with
      | Lerror id =>
        if bool_decide (id ∈ hw_error_code_vectors) then tail (stack c0)
        else stack c0
      | _ => stack c0
      end /\
    ES c' = 0x23 /\ DS c' = 0x23 /\ Z.land (DS c') 3 = 3.
Proof.
  intros Hs Hlen Hne Hframe.
  assert (Hshape : exists v e,
             frame
             = regs c0 ++ v :: e ::
               match name s with
               | Lerror id =>
                 if bool_decide (id ∈ hw_error_code_vectors)
                 then tail (stack c0) else stack c0
               | _ => stack c0
               end).
  { each_stub s Hs; simpl in Hframe; injection Hframe as <-;
      try (eexists _, _; reflexivity);
      (destruct (stack c0) as [| e0 st];
       [exfalso; apply Hne; reflexivity | eexists _, _; reflexivity]). }
  destruct Hshape as (v & e & Hshape).
  set (rest := match name s with
               | Lerror id =>
                 if bool_decide (id ∈ hw_error_code_vectors)
                 then tail (stack c0) else stack c0
               | _ => stack c0
               end) in *.
  eexists. split.
  - unfold init_ctx.
    apply (run_restore
             {| stack := frame; regs := set_ax 35 (regs c);
                EBP := EBP c;
                DF := DF c;
                ES := 35; DS := 35 |} (regs c0) rest v e);
      [exact Hshape | assumption].
  - repeat split; reflexivity.
Qed.

End StubRun.

Section StubVectors.
Import Ctx.

Variable saved : list Z.

Lemma interrupt_stubs :
  filter (fun s => name s <> Lsyscall) context_s = take 48 context_s.
Proof. vm_compute. reflexivity. Qed.

(** X17. The stubs that call [interrupt_handler] record, in the order of the
    file, the vectors 0, 1, ..., 47: each vector once, so the vector of a
    frame tells which stub built it, and a table of 48 entries indexed by
    the vector has no gap. *)
Theorem interrupt_vectors_enumerate (hw : list Z) :
  (fun s => entry_int saved s hw)
    <$> filter (fun s => name s <> Lsyscall) context_s
  = Some <$> seqZ 0 48.
Proof.
  rewrite interrupt_stubs. unfold context_s, entry_int.
  cbn [take fmap list_fmap].
  rewrite ?build_frame_ERROR, ?build_frame_ERROR_CODE, ?build_frame_IRQ.
  cbn [mbind option_bind]. rewrite !frame_int_at. reflexivity.
Qed.

End StubVectors.

(** ** The further properties on sample inputs *)

Section MoreInstances.
Import Kernel Handler TestProcess Decimal TestMain Ctx CtxRun Samples.

Lemma print_nbr_appends_123 :
  exists cs,
    [7; 49; 50; 51] = [7] ++ cs /\
    forall out', print_nbr 3 123 out' = Some (out' ++ cs).
Proof.
  apply (print_nbr_appends 3 123 [7] [7; 49; 50; 51]). reflexivity.
Defined.

Lemma print_nbr_decimal_minus_123 :
  exists ds,
    print_nbr 10 (-123) [] = Some ([] ++ [45] ++ ds) /\
    Forall is_digit ds /\
    decimal_value ds = 123 /\
    (0 < length ds <= 10)%nat /\
    (head ds = Some 48 -> -123 = 0).
Proof.
  apply (print_nbr_decimal 10 (-123) []).
  - unfold Int.in_range, Int.INT_MIN, Int.INT_MAX. lia.
  - discriminate.
  - lia.
Defined.

Lemma print_nbr_round_trip_INT_MAX :
  exists cs,
    print_nbr 10 Int.INT_MAX [] = Some ([] ++ cs) /\
    (length cs <= 11)%nat /\
    parse_int cs = Int.INT_MAX.
Proof.
  apply (print_nbr_round_trip 10 Int.INT_MAX []).
  - unfold Int.in_range, Int.INT_MIN, Int.INT_MAX. lia.
  - discriminate.
  - lia.
Defined.

Lemma print_nbr_depth_123 :
  is_Some (print_nbr 2 123 []) <-> Z.abs 123 < 10 ^ Z.of_nat 2.
Proof.
  apply (print_nbr_depth 2 123 []).
  - unfold Int.in_range, Int.INT_MIN, Int.INT_MAX. lia.
  - discriminate.
  - lia.
Defined.

Lemma test_process_parent_child_5 :
  exists cr cs,
    print_nbr 10 5 [] = Some cr /\
    print_nbr 10 43 [] = Some cs /\
    test_process 10 parent_answers fresh
    = Some ({| out := [] ++ removelast str_hello
                 ++ removelast str_waiting ++ removelast str_ret ++ cr
                 ++ removelast str_status ++ cs;
               calls := [] ++ [ev_fork; ev_waitpid (-1) 42 0] |},
            Spinning).
Proof.
  apply (test_process_parent 10 parent_answers fresh).
  - discriminate.
  - unfold Int.in_range, Int.INT_MIN, Int.INT_MAX. simpl. lia.
  - unfold Int.in_range, Int.INT_MIN, Int.INT_MAX. simpl. lia.
  - lia.
Defined.

Lemma stub_enters_handler_page_fault :
  exists frame,
    build_frame [11; 12; 13] (body (ERROR_CODE 14)) [77; 1; 2; 3]
    = Some frame /\
    run_to_call 3 ebp_first_zero ebp_first_load clobber
      (body (ERROR_CODE 14)) trapped
    = Some (interrupt_handler,
            {| stack := address_of frame :: frame;
               regs := [0; 12; 13]; EBP := 0; DF := false;
               ES := 0; DS := 0 |}).
Proof.
  apply (stub_enters_handler 3 ebp_first_zero ebp_first_load clobber
           (ERROR_CODE 14) trapped).
  unfold context_s.
  repeat first [apply list_elem_of_here | apply list_elem_of_further].
Defined.

(** The syscall stub with a C function that writes 7 in the third saved
    register of the frame: 7 is what the interrupted code finds there. *)
Lemma stub_resumes_from_frame_syscall :
  exists c',
    run 3 ebp_first_zero ebp_first_load (set_slot 7) (body syscall) trapped
    = Some c' /\
    regs c' = [11; 12; 7] /\ stack c' = [77; 1; 2; 3].
Proof.
  apply (stub_resumes_from_frame 3 ebp_first_zero ebp_first_load (set_slot 7)
           syscall trapped
           {| stack := -36 :: [11; 12; 13] ++ 0 :: 0 :: [77; 1; 2; 3];
              regs := [0; 12; 13]; EBP := 0; DF := false;
              ES := 0; DS := 0 |}
           syscall_handler [11; 12; 7] [77; 1; 2; 3] (-36) 0 0).
  - unfold context_s.
    repeat first [apply list_elem_of_here | apply list_elem_of_further].
  - reflexivity.
  - reflexivity.
  - reflexivity.
Defined.

Lemma stub_is_transparent_page_fault :
  exists c',
    run 3 ebp_first_zero ebp_first_load clobber (body (ERROR_CODE 14))
      trapped = Some c' /\
    regs c' = [11; 12; 13] /\
    stack c' = [1; 2; 3].
Proof.
  apply (stub_is_transparent 3 ebp_first_zero ebp_first_load clobber
           (ERROR_CODE 14) trapped).
  - unfold context_s.
    repeat first [apply list_elem_of_here | apply list_elem_of_further].
  - reflexivity.
  - reflexivity.
  - discriminate.
Defined.

Lemma init_ctx_resumes_frame_page_fault :
  exists c',
    init_ctx 3 ebp_first_zero ebp_first_load (fun _ r => r) clobber
      ([11; 12; 13] ++ [14; 77; 1; 2; 3]) trapped = Some c' /\
    regs c' = [11; 12; 13] /\
    stack c' = [1; 2; 3] /\
    ES c' = 0x23 /\ DS c' = 0x23 /\ Z.land (DS c') 3 = 3.
Proof.
  apply (init_ctx_resumes_frame 3 ebp_first_zero ebp_first_load
           (fun _ r => r) clobber (ERROR_CODE 14) trapped trapped).
  - unfold context_s.
    repeat first [apply list_elem_of_here | apply list_elem_of_further].
  - reflexivity.
  - discriminate.
  - reflexivity.
Defined.

End MoreInstances.
